(** * common-utils: dates and weekdays, arrays, masks

    A shallow embedding of the date module of the repository (weekday
    tables and conversions, week-of-month arithmetic, date-picker range
    logic, token formatting, lenient "safe" formatting, Unix-epoch
    conversions), of the array helpers [removeDuplicates] and [chunk] and
    of the masks [maskRRN] and [maskAccount], together with the part of the
    host language they run on: ECMAScript numbers, strings, arrays and the
    built-in [Date].

    Conventions of the embedding.
    - A string is a [string] of bytes holding the UTF-8 encoding of the
      source text.  The functions embedded here compare strings for
      equality, search them for ASCII tokens and count ASCII digits, and
      all of that agrees on UTF-8 bytes and on UTF-16 code units.
    - A [Date] object is its time value: [Some t], with [t] the number of
      milliseconds since the epoch, or [None] for an Invalid Date (time
      value NaN).  The module always copies a [Date] before it changes it,
      so dates are values here and a setter returns the changed date.
    - A number that can only be an integer or NaN (a date component, an
      array index, a count of days) is an [option Z], [None] being NaN.
      A number that comes from the caller is a [number]: NaN, an infinity
      or a finite value, the latter a rational.  The numbers of the
      language are the binary64 values among these, and the two operations
      of the module that can leave them, reading a numeric string and
      multiplying, round their exact result to binary64 (to nearest, ties
      to even; see [roundToBinary64]).  A rational that is no binary64
      value is not a number of the language; what is proved of every
      [number] holds of those that are.  The sign of a zero is not kept:
      a zero of either sign is falsy and gives the time value 0.  The
      arithmetic on integers-or-NaN is on date components, day counts and
      time values, and is exact in binary64 as long as these stay below
      2^53 in magnitude, as every representable time does.
    - The host time zone is a constant offset [LocalTZA] from UTC, in
      milliseconds: the host observes no daylight-saving or other change
      of offset.  Every statement about local time is a statement about
      such hosts.
    - Default arguments are written out: a function takes the value its
      caller would have left to the default.  *)

From Stdlib Require Import ZArith Lia Bool List Ascii String QArith Qabs.
From Stdlib Require Import Numbers.DecimalString.
Import ListNotations.

Open Scope Z_scope.

(** ** ECMAScript time arithmetic (ECMA-262, "Time Values and Time Range") *)

Module EcmaTime.

Definition msPerDay : Z := 86400000.
Definition msPerHour : Z := 3600000.
Definition msPerMinute : Z := 60000.
Definition msPerSecond : Z := 1000.
Definition maxTime : Z := 8640000000000000.

Definition Day (t : Z) : Z := t / msPerDay.
Definition TimeWithinDay (t : Z) : Z := t mod msPerDay.

Definition DaysInYear (y : Z) : Z :=
  if negb (y mod 4 =? 0) then 365
  else if negb (y mod 100 =? 0) then 366
  else if negb (y mod 400 =? 0) then 365
  else 366.

Definition DayFromYear (y : Z) : Z :=
  365 * (y - 1970) + (y - 1969) / 4 - (y - 1901) / 100 + (y - 1601) / 400.

(** [YearFromTime t] is the largest [y] with [DayFromYear y <= Day t]: an
    estimate from the mean length of a year, corrected by at most one. *)
Definition YearFromDay (n : Z) : Z :=
  let y0 := 1970 + (400 * n) / 146097 in
  if n <? DayFromYear y0 then y0 - 1
  else if DayFromYear (y0 + 1) <=? n then y0 + 1
  else y0.

Definition YearFromTime (t : Z) : Z := YearFromDay (Day t).

Definition InLeapYear (t : Z) : Z :=
  if DaysInYear (YearFromTime t) =? 366 then 1 else 0.

Definition DayWithinYear (t : Z) : Z := Day t - DayFromYear (YearFromTime t).

(** Number of days of the year that precede month [m] (0 = January). *)
Definition monthStart (leap m : Z) : Z :=
  if m =? 0 then 0
  else if m =? 1 then 31
  else if m =? 2 then 59 + leap
  else if m =? 3 then 90 + leap
  else if m =? 4 then 120 + leap
  else if m =? 5 then 151 + leap
  else if m =? 6 then 181 + leap
  else if m =? 7 then 212 + leap
  else if m =? 8 then 243 + leap
  else if m =? 9 then 273 + leap
  else if m =? 10 then 304 + leap
  else 334 + leap.

Definition MonthFromTime (t : Z) : Z :=
  let d := DayWithinYear t in
  let leap := InLeapYear t in
  if d <? 31 then 0
  else if d <? 59 + leap then 1
  else if d <? 90 + leap then 2
  else if d <? 120 + leap then 3
  else if d <? 151 + leap then 4
  else if d <? 181 + leap then 5
  else if d <? 212 + leap then 6
  else if d <? 243 + leap then 7
  else if d <? 273 + leap then 8
  else if d <? 304 + leap then 9
  else if d <? 334 + leap then 10
  else 11.

Definition DateFromTime (t : Z) : Z :=
  DayWithinYear t - monthStart (InLeapYear t) (MonthFromTime t) + 1.

Definition WeekDay (t : Z) : Z := (Day t + 4) mod 7.

Definition HourFromTime (t : Z) : Z := (t / msPerHour) mod 24.
Definition MinFromTime (t : Z) : Z := (t / msPerMinute) mod 60.
Definition SecFromTime (t : Z) : Z := (t / msPerSecond) mod 60.
Definition msFromTime (t : Z) : Z := t mod msPerSecond.

Definition MakeTime (hour min sec ms : Z) : Z :=
  hour * msPerHour + min * msPerMinute + sec * msPerSecond + ms.

Definition DaysInMonth (y m : Z) : Z :=
  let leap := if DaysInYear y =? 366 then 1 else 0 in
  (if m =? 11 then 365 + leap else monthStart leap (m + 1)) - monthStart leap m.

(** [MakeDay year month date]: the day number of the [date]-th day of the
    month [month] (0 = January; months outside 0..11 carry into the year). *)
Definition MakeDay (year month date : Z) : Z :=
  let ym := year + month / 12 in
  let mn := month mod 12 in
  let leap := if DaysInYear ym =? 366 then 1 else 0 in
  DayFromYear ym + monthStart leap mn + date - 1.

Definition MakeDate (day time : Z) : Z := day * msPerDay + time.

(** The two-digit-year rule of the [Date] constructor. *)
Definition MakeFullYear (y : Z) : Z :=
  if (0 <=? y) && (y <=? 99) then 1900 + y else y.

(** [TimeClip] on an integral time value. *)
Definition TimeClip (t : Z) : option Z :=
  if Z.abs t <=? maxTime then Some t else None.

End EcmaTime.

Import EcmaTime.

(** ** ECMAScript numbers *)

Inductive number : Type :=
| NaN
| Infinity (negative : bool)
| Finite (q : Q).

Definition number_of_Z (z : Z) : number := Finite (inject_Z z).

(** An integer-or-NaN seen as a number. *)
Definition number_of_int (x : option Z) : number :=
  match x with
  | Some z => number_of_Z z
  | None => NaN
  end.

Definition isNaN (x : number) : bool :=
  match x with
  | NaN => true
  | _ => false
  end.

(** [x > y] on numbers; a comparison with NaN is false. *)
Definition num_gt (x y : number) : bool :=
  match x, y with
  | NaN, _ | _, NaN => false
  | Infinity nx, Infinity ny => negb nx && ny
  | Infinity nx, Finite _ => negb nx
  | Finite _, Infinity ny => ny
  | Finite p, Finite q => negb (Qle_bool p q)
  end.

(** The integer nearest to [n / d], the even one of two that are equally
    near; [0 <= n] and [0 < d]. *)
Definition roundHalfEven (n d : Z) : Z :=
  let f := n / d in
  match 2 * (n mod d) ?= d with
  | Lt => f
  | Gt => f + 1
  | Eq => if Z.even f then f else f + 1
  end.

(** The integral part of the binary logarithm of [n / d]; [0 < n] and
    [0 < d]. *)
Definition floorLog2 (n d : Z) : Z :=
  let k := Z.log2 n - Z.log2 d in
  if (if 0 <=? k then d * 2 ^ k <=? n else d <=? n * 2 ^ (- k)) then k else k - 1.

(** The Number value for a real number, here a rational: the binary64
    value nearest to it, ties to the even significand.  With [e] the
    exponent of [q], the values near [q] are the multiples of [2 ^ u],
    [u] being [e - 52] or, for a subnormal, [-1074]; a result of [2 ^ 1024]
    or more is an infinity.  A literal is rounded from its exact value
    whatever the number of its digits, as the engines do (the language
    leaves them a choice past the twentieth significant digit). *)
Definition roundToBinary64 (q : Q) : number :=
  let n := Z.abs (Qnum q) in
  let d := Z.pos (Qden q) in
  if n =? 0 then Finite 0
  else
    let e := floorLog2 n d in
    let u := Z.max (e - 52) (-1074) in
    let m := roundHalfEven (n * 2 ^ Z.max (- u) 0) (d * 2 ^ Z.max u 0) in
    if (0 <=? u) && (2 ^ 1024 <=? m * 2 ^ u) then Infinity (Qnum q <? 0)
    else
      let r := if 0 <=? u then inject_Z (m * 2 ^ u)
               else Qred (Qmake m (Z.to_pos (2 ^ (- u)))) in
      Finite (if Qnum q <? 0 then Qopp r else r).

(** [x * y]: the exact product, rounded. *)
Definition num_mul (x y : number) : number :=
  match x, y with
  | NaN, _ | _, NaN => NaN
  | Infinity nx, Infinity ny => Infinity (xorb nx ny)
  | Infinity n, Finite q | Finite q, Infinity n =>
      if Qnum q =? 0 then NaN else Infinity (xorb n (Qnum q <? 0))
  | Finite p, Finite q => roundToBinary64 (p * q)
  end.

(** ToBoolean on a number: zero and NaN are falsy. *)
Definition num_truthy (x : number) : bool :=
  match x with
  | NaN => false
  | Infinity _ => true
  | Finite q => negb (Qnum q =? 0)
  end.

(** [TimeClip] on a number: NaN outside the range of time values, the
    integral part (rounded toward zero) inside it. *)
Definition TimeClipNumber (x : number) : option Z :=
  match x with
  | Finite q =>
      if Qle_bool (Qabs q) (inject_Z maxTime)
      then Some (Z.quot (Qnum q) (Zpos (Qden q)))
      else None
  | _ => None
  end.

(** Arithmetic on integers-or-NaN; NaN is contagious and compares false. *)
Definition int_add (x y : option Z) : option Z :=
  match x, y with
  | Some a, Some b => Some (a + b)
  | _, _ => None
  end.

Definition int_sub (x y : option Z) : option Z :=
  match x, y with
  | Some a, Some b => Some (a - b)
  | _, _ => None
  end.

(** The remainder operator [%]: the result takes the sign of the dividend. *)
Definition int_rem (x y : option Z) : option Z :=
  match x, y with
  | Some a, Some b => if b =? 0 then None else Some (Z.rem a b)
  | _, _ => None
  end.

Definition int_lt (x y : option Z) : bool :=
  match x, y with
  | Some a, Some b => a <? b
  | _, _ => false
  end.

Definition int_gt (x y : option Z) : bool := int_lt y x.

(** Strict equality [===] on numbers: NaN differs from everything. *)
Definition int_eq (x y : option Z) : bool :=
  match x, y with
  | Some a, Some b => a =? b
  | _, _ => false
  end.

(** [Math.ceil (x / d)] and [Math.floor (x / d)] for a positive integer
    constant [d]. *)
Definition ceil_div (x : option Z) (d : Z) : option Z :=
  match x with
  | Some a => Some (- ((- a) / d))
  | None => None
  end.

Definition floor_div (x : option Z) (d : Z) : option Z :=
  match x with
  | Some a => Some (a / d)
  | None => None
  end.

(** ** ECMAScript strings *)

Open Scope string_scope.
Open Scope Z_scope.

(** [Number.prototype.toString] on an integer-or-NaN (the integers the
    module prints are date components, far below 10^21). *)
Definition toString (x : option Z) : string :=
  match x with
  | Some z => NilZero.string_of_int (Z.to_int z)
  | None => "NaN"
  end.

(** [s.replace(/pat/g, rep)] for a literal, non-empty pattern and a
    replacement without [$]: the matches are taken leftmost first and do
    not overlap.  [skip] counts the characters of the current match that
    are still to be passed over. *)
Fixpoint replaceAll_from (pat rep : string) (skip : nat) (s : string) : string :=
  match s with
  | EmptyString => EmptyString
  | String c s' =>
      match skip with
      | S k => replaceAll_from pat rep k s'
      | O =>
          if prefix pat s
          then rep ++ replaceAll_from pat rep (Nat.pred (String.length pat)) s'
          else String c (replaceAll_from pat rep 0 s')
      end
  end.

Definition replaceAll (pat rep s : string) : string :=
  replaceAll_from pat rep 0 s.

Definition is_digit (c : ascii) : bool :=
  let n := N_of_ascii c in (48 <=? n)%N && (n <=? 57)%N.

Definition digit_value (c : ascii) : Z := Z.of_N (N_of_ascii c) - 48.

(** The value of a digit in a base up to 16, if it is one. *)
Definition digit_in_base (base : Z) (c : ascii) : option Z :=
  let n := Z.of_N (N_of_ascii c) in
  let v := if (48 <=? n) && (n <=? 57) then n - 48
           else if (97 <=? n) && (n <=? 102) then n - 87
           else if (65 <=? n) && (n <=? 70) then n - 55
           else 16 in
  if v <? base then Some v else None.

Fixpoint span_digits (s : string) : string * string :=
  match s with
  | EmptyString => (EmptyString, EmptyString)
  | String c s' =>
      if is_digit c
      then let (ds, rest) := span_digits s' in (String c ds, rest)
      else (EmptyString, s)
  end.

Fixpoint digits_value_from (acc : Z) (ds : string) : Z :=
  match ds with
  | EmptyString => acc
  | String c ds' => digits_value_from (10 * acc + digit_value c) ds'
  end.

Definition digits_value (ds : string) : Z := digits_value_from 0 ds.

(** Digits of a non-decimal integer literal: all of [s], at least one. *)
Fixpoint radix_value_from (base acc : Z) (s : string) : option Z :=
  match s with
  | EmptyString => Some acc
  | String c s' =>
      match digit_in_base base c with
      | Some v => radix_value_from base (base * acc + v) s'
      | None => None
      end
  end.

Definition radix_value (base : Z) (s : string) : option Z :=
  match s with
  | EmptyString => None
  | _ => radix_value_from base 0 s
  end.

(** The white space and line terminators of the language, in UTF-8. *)
Definition StrWhiteSpaceChars : list string :=
  [ String (ascii_of_N 9) ""; String (ascii_of_N 10) "";
    String (ascii_of_N 11) ""; String (ascii_of_N 12) "";
    String (ascii_of_N 13) ""; " ";
    String (ascii_of_N 194) (String (ascii_of_N 160) "");
    String (ascii_of_N 225) (String (ascii_of_N 154) (String (ascii_of_N 128) ""));
    String (ascii_of_N 226) (String (ascii_of_N 128) (String (ascii_of_N 128) ""));
    String (ascii_of_N 226) (String (ascii_of_N 128) (String (ascii_of_N 129) ""));
    String (ascii_of_N 226) (String (ascii_of_N 128) (String (ascii_of_N 130) ""));
    String (ascii_of_N 226) (String (ascii_of_N 128) (String (ascii_of_N 131) ""));
    String (ascii_of_N 226) (String (ascii_of_N 128) (String (ascii_of_N 132) ""));
    String (ascii_of_N 226) (String (ascii_of_N 128) (String (ascii_of_N 133) ""));
    String (ascii_of_N 226) (String (ascii_of_N 128) (String (ascii_of_N 134) ""));
    String (ascii_of_N 226) (String (ascii_of_N 128) (String (ascii_of_N 135) ""));
    String (ascii_of_N 226) (String (ascii_of_N 128) (String (ascii_of_N 136) ""));
    String (ascii_of_N 226) (String (ascii_of_N 128) (String (ascii_of_N 137) ""));
    String (ascii_of_N 226) (String (ascii_of_N 128) (String (ascii_of_N 138) ""));
    String (ascii_of_N 226) (String (ascii_of_N 128) (String (ascii_of_N 168) ""));
    String (ascii_of_N 226) (String (ascii_of_N 128) (String (ascii_of_N 169) ""));
    String (ascii_of_N 226) (String (ascii_of_N 128) (String (ascii_of_N 175) ""));
    String (ascii_of_N 226) (String (ascii_of_N 129) (String (ascii_of_N 159) ""));
    String (ascii_of_N 227) (String (ascii_of_N 128) (String (ascii_of_N 128) ""));
    String (ascii_of_N 239) (String (ascii_of_N 187) (String (ascii_of_N 191) "")) ].

(** Length of the white-space character [s] starts with, 0 if none. *)
Fixpoint white_prefix (ws : list string) (s : string) : nat :=
  match ws with
  | [] => O
  | w :: ws' => if prefix w s then String.length w else white_prefix ws' s
  end.

Fixpoint drop (n : nat) (s : string) : string :=
  match n, s with
  | S k, String _ s' => drop k s'
  | _, _ => s
  end.

Fixpoint trim_with (ws : list string) (fuel : nat) (s : string) : string :=
  match fuel with
  | O => s
  | S f =>
      match white_prefix ws s with
      | O => s
      | n => trim_with ws f (drop n s)
      end
  end.

Fixpoint rev_string (acc s : string) : string :=
  match s with
  | EmptyString => acc
  | String c s' => rev_string (String c acc) s'
  end.

Definition trimStart (s : string) : string :=
  trim_with StrWhiteSpaceChars (String.length s) s.

Definition trimEnd (s : string) : string :=
  let r := rev_string "" s in
  rev_string ""
    (trim_with (map (rev_string "") StrWhiteSpaceChars) (String.length r) r).

Definition trim (s : string) : string := trimEnd (trimStart s).

(** An exponent part, or nothing, up to the end of the literal. *)
Definition ExponentPart (s : string) : option Z :=
  match s with
  | EmptyString => Some 0
  | String c r =>
      if (c =? "e")%char || (c =? "E")%char then
        let '(neg, r') :=
          match r with
          | String "+" r' => (false, r')
          | String "-" r' => (true, r')
          | _ => (false, r)
          end in
        match span_digits r' with
        | (String d ds, EmptyString) =>
            let e := digits_value (String d ds) in
            Some (if neg : bool then - e else e)
        | _ => None
        end
      else None
  end.

(** [m * 10^e] as a rational in lowest terms. *)
Definition scale10 (m e : Z) : Q :=
  if 0 <=? e then inject_Z (m * 10 ^ e)
  else Qred (Qmake m (Z.to_pos (10 ^ (- e)))).

(** StrUnsignedDecimalLiteral other than [Infinity]:
    digits [.] digits? exponent?, [.] digits exponent?, digits exponent? *)
Definition StrUnsignedDecimalLiteral (s : string) : option Q :=
  let (ip, r1) := span_digits s in
  let '(fp, r2) :=
    match r1 with
    | String "." r => span_digits r
    | _ => (EmptyString, r1)
    end in
  match ip, fp with
  | EmptyString, EmptyString => None
  | _, _ =>
      match ExponentPart r2 with
      | Some e =>
          Some (scale10 (digits_value (ip ++ fp)) (e - Z.of_nat (String.length fp)))
      | None => None
      end
  end.

Definition StrDecimalLiteral (s : string) : number :=
  let '(neg, body) :=
    match s with
    | String c r =>
        if (c =? "+")%char then (false, r)
        else if (c =? "-")%char then (true, r)
        else (false, s)
    | EmptyString => (false, s)
    end in
  if (body =? "Infinity")%string then Infinity neg
  else
    match StrUnsignedDecimalLiteral body with
    | Some q => roundToBinary64 (if neg : bool then Qopp q else q)
    | None => NaN
    end.

(** The Number value of a non-decimal integer literal. *)
Definition number_of_literal (x : option Z) : number :=
  match x with
  | Some z => roundToBinary64 (inject_Z z)
  | None => NaN
  end.

(** [StringToNumber]: white space is trimmed, the empty string is 0, a
    binary, octal or hexadecimal integer literal carries no sign, and the
    mathematical value of a literal is rounded to binary64. *)
Definition StringToNumber (s : string) : number :=
  let t := trim s in
  match t with
  | EmptyString => number_of_Z 0
  | String c (String x r) =>
      if (c =? "0")%char && ((x =? "x")%char || (x =? "X")%char)
      then number_of_literal (radix_value 16 r)
      else if (c =? "0")%char && ((x =? "o")%char || (x =? "O")%char)
      then number_of_literal (radix_value 8 r)
      else if (c =? "0")%char && ((x =? "b")%char || (x =? "B")%char)
      then number_of_literal (radix_value 2 r)
      else StrDecimalLiteral t
  | _ => StrDecimalLiteral t
  end.

(** A string made of decimal digits only. *)
Fixpoint digits_only (s : string) : bool :=
  match s with
  | EmptyString => true
  | String c s' => is_digit c && digits_only s'
  end.

(** What the documentation of the token formatter describes, written from
    its words rather than from its code: the format string is read once
    from left to right, and at each position the token found there, a
    two-letter token before its single-letter counterpart, gives way to
    its text ([y] for [yyyy], [mm] for [MM], [m] for [M], [dd] for [dd],
    [d] for [d]); any other character is kept. *)
Fixpoint formatTokens_from (y mm m dd d : string) (skip : nat) (s : string) : string :=
  match s with
  | EmptyString => EmptyString
  | String c s' =>
      match skip with
      | S k => formatTokens_from y mm m dd d k s'
      | O =>
          if prefix "yyyy" s then y ++ formatTokens_from y mm m dd d 3 s'
          else if prefix "MM" s then mm ++ formatTokens_from y mm m dd d 1 s'
          else if prefix "M" s then m ++ formatTokens_from y mm m dd d 0 s'
          else if prefix "dd" s then dd ++ formatTokens_from y mm m dd d 1 s'
          else if prefix "d" s then d ++ formatTokens_from y mm m dd d 0 s'
          else String c (formatTokens_from y mm m dd d 0 s')
      end
  end.

Definition formatTokens (y mm m dd d s : string) : string :=
  formatTokens_from y mm m dd d 0 s.

(** [avoids x s]: the character [x] does not occur in [s]. *)
Fixpoint avoids (x : ascii) (s : string) : bool :=
  match s with
  | EmptyString => true
  | String c s' => negb (c =? x)%char && avoids x s'
  end.

(** The character of a decimal digit, and a check of a property on the
    [n] integers from [z] on. *)
Definition digit_char (v : Z) : ascii := ascii_of_N (Z.to_N (v + 48)).

Fixpoint all_from (n : nat) (z : Z) (p : Z -> bool) : bool :=
  match n with
  | O => true
  | S k => p z && all_from k (z + 1) p
  end.

(** [head_ne x s]: [s] does not start with the character [x]. *)
Definition head_ne (x : ascii) (s : string) : Prop :=
  match s with
  | EmptyString => True
  | String c _ => c <> x
  end.

(** A text that may stand for a token: it is not empty and holds none of
    the characters the tokens are made of. *)
Definition token_text (s : string) : Prop :=
  s <> "" /\ avoids "y" s = true /\ avoids "M" s = true /\ avoids "d" s = true.

(** The five global replacements of the token formatter, in its order. *)
Definition replaceTokens (y mm m dd d s : string) : string :=
  replaceAll "d" d
    (replaceAll "dd" dd
      (replaceAll "M" m
        (replaceAll "MM" mm
          (replaceAll "yyyy" y s)))).

(** [s.padStart(width, "0")] for a text of one-byte characters. *)
Fixpoint zeros (n : nat) : string :=
  match n with
  | O => EmptyString
  | S k => String "0" (zeros k)
  end.

Definition padStart0 (width : nat) (s : string) : string :=
  zeros (width - String.length s) ++ s.

(** [s.split(x)[0]]: the text before the first [x], all of [s] without one. *)
Fixpoint before_char (x : ascii) (s : string) : string :=
  match s with
  | EmptyString => EmptyString
  | String c s' => if (c =? x)%char then EmptyString else String c (before_char x s')
  end.

(** [s.replace(/\D/g, "")]: the decimal digits of [s], in their order. *)
Fixpoint keep_digits (s : string) : string :=
  match s with
  | EmptyString => EmptyString
  | String c s' => if is_digit c then String c (keep_digits s') else keep_digits s'
  end.

(** [c.repeat(n)] for a character [c]. *)
Fixpoint repeat_char (c : ascii) (n : nat) : string :=
  match n with
  | O => EmptyString
  | S k => String c (repeat_char c k)
  end.

(** Array access [a[i]]: [undefined] (here [None]) off the array or at NaN. *)
Definition array_get {A : Type} (a : list A) (i : option Z) : option A :=
  match i with
  | Some z => if z <? 0 then None else nth_error a (Z.to_nat z)
  | None => None
  end.

(** [a.indexOf(x)]: the first index holding [x], [-1] if there is none. *)
Fixpoint indexOf_from (i : Z) (a : list string) (x : string) : Z :=
  match a with
  | [] => -1
  | y :: a' => if (y =? x)%string then i else indexOf_from (i + 1) a' x
  end.

Definition indexOf (a : list string) (x : string) : Z := indexOf_from 0 a x.

(** ** The built-in [Date] *)

Definition Date : Type := option Z.

(** The date-only form [YYYY-MM-DD] of the date-time string format, read
    as UTC midnight.  Only legal dates are accepted here. *)
Definition parseIsoDate (s : string) : option Z :=
  match s with
  | String y1 (String y2 (String y3 (String y4 (String h1
      (String m1 (String m2 (String h2 (String d1 (String d2 "")))))))))
    =>
      if (h1 =? "-")%char && (h2 =? "-")%char
         && forallb is_digit [y1; y2; y3; y4; m1; m2; d1; d2] then
        let y := digits_value (String y1 (String y2 (String y3 (String y4 "")))) in
        let m := digits_value (String m1 (String m2 "")) in
        let d := digits_value (String d1 (String d2 "")) in
        if (1 <=? m) && (m <=? 12) && (1 <=? d) && (d <=? DaysInMonth y (m - 1))
        then Some (MakeDate (MakeDay y (m - 1) d) 0)
        else None
      else None
  | _ => None
  end.

(** The value handed to [formatSafeDate]: [string | number | undefined]. *)
Inductive DateValue : Type :=
| Undefined
| Num (n : number)
| Str (s : string).

(** ToBoolean and [Number(...)] on such a value. *)
Definition truthy (v : DateValue) : bool :=
  match v with
  | Undefined => false
  | Num n => num_truthy n
  | Str s => negb (s =? "")%string
  end.

Definition Number (v : DateValue) : number :=
  match v with
  | Undefined => NaN
  | Num n => n
  | Str s => StringToNumber s
  end.

Definition typeof_number (v : DateValue) : bool :=
  match v with
  | Num _ => true
  | _ => false
  end.

(** [d.toISOString()], which reads the date in UTC; [None] stands for the
    RangeError raised on an Invalid Date. *)
Definition isoYear (y : Z) : string :=
  if (0 <=? y) && (y <=? 9999) then padStart0 4 (toString (Some y))
  else (if y <? 0 then "-" else "+") ++ padStart0 6 (toString (Some (Z.abs y))).

Definition isoDatePart (t : Z) : string :=
  isoYear (YearFromTime t) ++ "-" ++
  padStart0 2 (toString (Some (MonthFromTime t + 1))) ++ "-" ++
  padStart0 2 (toString (Some (DateFromTime t))).

Definition isoTimePart (t : Z) : string :=
  padStart0 2 (toString (Some (HourFromTime t))) ++ ":" ++
  padStart0 2 (toString (Some (MinFromTime t))) ++ ":" ++
  padStart0 2 (toString (Some (SecFromTime t))) ++ "." ++
  padStart0 3 (toString (Some (msFromTime t))) ++ "Z".

Definition toISOString (d : Date) : option string :=
  match d with
  | Some t => Some (isoDatePart t ++ "T" ++ isoTimePart t)
  | None => None
  end.

(** ** The array module *)

Section ArrayModule.

(** The elements of an array, with the equality a [Set] tells its members
    apart by, taken to be decidable. *)
Variable T : Type.
Variable T_eq_dec : forall x y : T, {x = y} + {x <> y}.

(** [new Set(array)] as the list of its members in insertion order: a
    value is added behind the others unless it is a member already. *)
Fixpoint Set_add_all (members array : list T) : list T :=
  match array with
  | [] => members
  | x :: rest =>
      Set_add_all (if in_dec T_eq_dec x members then members else members ++ [x])%list rest
  end.

Definition removeDuplicates (array : list T) : list T :=
  Set_add_all [] array.

(** [a.slice(start, end)]: a negative index counts from the end and both
    indices are clamped to the array. *)
Definition slice (a : list T) (start end_ : Z) : list T :=
  let len := Z.of_nat (List.length a) in
  let k := if start <? 0 then Z.max (len + start) 0 else Z.min start len in
  let final := if end_ <? 0 then Z.max (len + end_) 0 else Z.min end_ len in
  firstn (Z.to_nat (final - k)) (skipn (Z.to_nat k) a).

(** The indices [0 .. n-1] handed to the mapping function of [Array.from]. *)
Definition indices (n : Z) : list Z := map Z.of_nat (seq 0 (Z.to_nat n)).

(** [chunk] for a whole number [size].  [Math.ceil(array.length / size)] is
    NaN for an empty array and size 0, which makes an empty array; it is
    infinite for a non-empty array and size 0, which makes [Array.from]
    raise a RangeError, here [None]; a negative length makes an empty
    array. *)
Definition chunk (array : list T) (size : Z) : option (list (list T)) :=
  let len := Z.of_nat (List.length array) in
  if size =? 0 then
    if len =? 0 then Some [] else None
  else
    let length := - ((- len) / size) in
    Some (map (fun i => slice array (i * size) (i * size + size)) (indices length)).

End ArrayModule.

Arguments removeDuplicates {T} T_eq_dec array.
Arguments Set_add_all {T} T_eq_dec members array.
Arguments slice {T} a start end_.
Arguments chunk {T} array size.

(** ** The masking module *)

(** [maskRRN]: [None] is a missing argument. *)
Definition maskRRN (rrn : option string) : string :=
  match rrn with
  | None => "-"
  | Some rrn =>
      if (rrn =? "")%string then "-"
      else
        let cleaned := keep_digits rrn in
        if negb (String.length cleaned =? 13)%nat then "-"
        else substring 0 6 cleaned ++ "-" ++ substring 6 1 cleaned ++ "******"
  end.

(** [maskAccount]: [cleaned.slice(-4)] is the last four digits. *)
Definition maskAccount (account : option string) : string :=
  match account with
  | None => "-"
  | Some account =>
      if (account =? "")%string then "-"
      else
        let cleaned := keep_digits account in
        if (String.length cleaned <? 8)%nat then "-"
        else substring 0 4 cleaned
             ++ repeat_char "*" (String.length cleaned - 8)
             ++ substring (String.length cleaned - 4) 4 cleaned
  end.

(** ** The weekday tables *)

Inductive DayFormat : Set :=
| ko_short
| ko_long
| en_short
| en_short_caps
| en_long
| en_long_caps.

Definition DayFormat_eqb (f g : DayFormat) : bool :=
  match f, g with
  | ko_short, ko_short | ko_long, ko_long | en_short, en_short
  | en_short_caps, en_short_caps | en_long, en_long
  | en_long_caps, en_long_caps => true
  | _, _ => false
  end.

(** The object literal, in the order of its keys. *)
Definition DAY_MAPPINGS : list (DayFormat * list string) :=
  [ (ko_short, ["일"; "월"; "화"; "수"; "목"; "금"; "토"]);
    (ko_long, ["일요일"; "월요일"; "화요일"; "수요일"; "목요일"; "금요일"; "토요일"]);
    (en_short, ["sun"; "mon"; "tue"; "wed"; "thu"; "fri"; "sat"]);
    (en_short_caps, ["SUN"; "MON"; "TUE"; "WED"; "THU"; "FRI"; "SAT"]);
    (en_long,
      ["sunday"; "monday"; "tuesday"; "wednesday"; "thursday"; "friday"; "saturday"]);
    (en_long_caps,
      ["SUNDAY"; "MONDAY"; "TUESDAY"; "WEDNESDAY"; "THURSDAY"; "FRIDAY"; "SATURDAY"]) ].

Definition Object_keys {A B : Type} (o : list (A * B)) : list A := map fst o.

(** [DAY_MAPPINGS[format]]; every format is a key of the object. *)
Definition DAY_MAPPINGS_at (format : DayFormat) : list string :=
  match find (fun kv => DayFormat_eqb (fst kv) format) DAY_MAPPINGS with
  | Some kv => snd kv
  | None => []
  end.

(** Two settings to evaluate the module in: Korean standard time, nine hours ahead of UTC, and a host that parses
    nothing beyond the legal [YYYY-MM-DD] dates. *)
Definition KST : Z := 9 * msPerHour.
Definition strictParse (s : string) : option Z := None.

Section DateModule.

(** The offset of local time from UTC, and what the host's [Date.parse]
    makes of a string that is not a legal [YYYY-MM-DD] date. *)
Variable LocalTZA : Z.
Variable hostParse : string -> option Z.

Definition LocalTime (t : Z) : Z := t + LocalTZA.
Definition UTC (t : Z) : Z := t - LocalTZA.

Definition getTime (d : Date) : option Z := d.

Definition getFullYear (d : Date) : option Z :=
  option_map (fun t => YearFromTime (LocalTime t)) d.

Definition getMonth (d : Date) : option Z :=
  option_map (fun t => MonthFromTime (LocalTime t)) d.

Definition getDate (d : Date) : option Z :=
  option_map (fun t => DateFromTime (LocalTime t)) d.

Definition getDay (d : Date) : option Z :=
  option_map (fun t => WeekDay (LocalTime t)) d.

Definition getHours (d : Date) : option Z :=
  option_map (fun t => HourFromTime (LocalTime t)) d.

(** [d.setDate(dt)], as the date it leaves in [d]. *)
Definition setDate (d : Date) (dt : option Z) : Date :=
  match d, dt with
  | Some t, Some n =>
      let tl := LocalTime t in
      let newDate :=
        MakeDate (MakeDay (YearFromTime tl) (MonthFromTime tl) n) (TimeWithinDay tl) in
      TimeClip (UTC newDate)
  | _, _ => None
  end.

(** [d.setHours(h)], as the date it leaves in [d]. *)
Definition setHours (d : Date) (h : option Z) : Date :=
  match d, h with
  | Some t, Some n =>
      let tl := LocalTime t in
      let time := MakeTime n (MinFromTime tl) (SecFromTime tl) (msFromTime tl) in
      TimeClip (UTC (MakeDate (Day tl) time))
  | _, _ => None
  end.

(** [new Date(d)] for a date [d], [new Date(x)] for a number, [new Date(s)]
    for a string, [new Date(year, month, date)]. *)
Definition newDate_copy (d : Date) : Date := d.

Definition newDate_number (x : number) : Date := TimeClipNumber x.

Definition Date_parse (s : string) : option Z :=
  match parseIsoDate s with
  | Some t => Some t
  | None => hostParse s
  end.

Definition newDate_string (s : string) : Date :=
  match Date_parse s with
  | Some t => TimeClip t
  | None => None
  end.

Definition newDate_value (v : DateValue) : Date :=
  match v with
  | Undefined => None
  | Num n => newDate_number n
  | Str s => newDate_string s
  end.

Definition newDate_ymd (year month date : option Z) : Date :=
  match year, month, date with
  | Some y, Some m, Some dt =>
      TimeClip (UTC (MakeDate (MakeDay (MakeFullYear y) m dt) 0))
  | _, _, _ => None
  end.

(** Relational comparison of two dates, through their time values. *)
Definition date_lt (a b : Date) : bool := int_lt (getTime a) (getTime b).
Definition date_gt (a b : Date) : bool := int_gt (getTime a) (getTime b).

(** The calendar day of a time, in local time, and the order of two dates
    in time: the notions the range rules of the date picker are stated in. *)
Definition calendarDay (t : Z) : Z * Z * Z :=
  (YearFromTime (LocalTime t), MonthFromTime (LocalTime t), DateFromTime (LocalTime t)).

Definition earlier (a b : Date) : Prop :=
  exists x y, a = Some x /\ b = Some y /\ x < y.

(** ** The module *)

Definition getDayOfWeek (date : Date) (format : DayFormat) : option string :=
  let dayIndex := getDay date in
  array_get (DAY_MAPPINGS_at format) dayIndex.

(** The search loop shared by [convertDayFormat] and [getDayIndex]: the
    formats are tried in order and the first table holding [day] decides. *)
Fixpoint findDay (formats : list DayFormat) (day : string) : option (DayFormat * Z) :=
  match formats with
  | [] => None
  | format :: rest =>
      let days := DAY_MAPPINGS_at format in
      let index := indexOf days day in
      if negb (index =? -1) then Some (format, index) else findDay rest day
  end.

Definition convertDayFormat (day : string) (targetFormat : DayFormat) : option string :=
  match findDay (Object_keys DAY_MAPPINGS) day with
  | None => None
  | Some (_, dayIndex) =>
      if dayIndex =? -1 then None
      else array_get (DAY_MAPPINGS_at targetFormat) (Some dayIndex)
  end.

Definition getDayIndex (day : string) : option Z :=
  match findDay (Object_keys DAY_MAPPINGS) day with
  | Some (_, index) => Some index
  | None => None
  end.

Definition getWeekDays (date : Date) (startFromSunday : bool) : list Date :=
  let currentDate := newDate_copy date in
  let currentDay := getDay currentDate in
  let startDay := if startFromSunday then Some 0 else Some 1 in
  let diff := int_sub currentDay startDay in
  let offsetDays := if int_lt diff (Some 0) then int_add diff (Some 7) else diff in
  let currentDate := setDate currentDate (int_sub (getDate currentDate) offsetDays) in
  map (fun i =>
         let weekDate := newDate_copy currentDate in
         setDate weekDate (int_add (getDate currentDate) (Some i)))
      [0; 1; 2; 3; 4; 5; 6].

Definition isSameDayOfWeek (date1 date2 : Date) : bool :=
  int_eq (getDay date1) (getDay date2).

(** [None] is the [null] of an unknown weekday name. *)
Definition getNextDayOfWeek (targetDay : string) (baseDate : Date)
    (searchForward : bool) : option Date :=
  match getDayIndex targetDay with
  | None => None
  | Some targetDayIndex =>
      let result := newDate_copy baseDate in
      let currentDayIndex := getDay result in
      let daysToAdd :=
        if searchForward then
          let daysToAdd :=
            int_rem (int_add (int_sub (Some targetDayIndex) currentDayIndex) (Some 7))
                    (Some 7) in
          if int_eq daysToAdd (Some 0) then Some 7 else daysToAdd
        else
          let daysToAdd :=
            int_rem (int_sub (int_sub (Some targetDayIndex) currentDayIndex) (Some 7))
                    (Some 7) in
          if int_eq daysToAdd (Some 0) then Some (-7) else daysToAdd in
      Some (setDate result (int_add (getDate result) daysToAdd))
  end.

Definition isWeekend (date : Date) : bool :=
  let day := getDay date in
  int_eq day (Some 0) || int_eq day (Some 6).

Definition isWeekday (date : Date) : bool := negb (isWeekend date).

Definition addHours (date : Date) (hours : Z) : Date :=
  let result := newDate_copy date in
  setHours result (int_add (getHours result) (Some hours)).

Definition subtractDays (date : Date) (days : Z) : Date :=
  let result := newDate_copy date in
  setDate result (int_sub (getDate result) (Some days)).

Definition isSameDay (date1 date2 : Date) : bool :=
  int_eq (getFullYear date1) (getFullYear date2) &&
  int_eq (getMonth date1) (getMonth date2) &&
  int_eq (getDate date1) (getDate date2).

Definition fromUnixTime (timestamp : number) : Date :=
  newDate_number (num_mul timestamp (number_of_Z 1000)).

Definition isValidDate (date : Date) : bool :=
  negb (isNaN (number_of_int (getTime date))).

Definition pad2 (num : option Z) : string :=
  if int_lt num (Some 10) then "0" ++ toString num else toString num.

Definition formatDate (date : Date) (formatStr : string) : string :=
  let year := getFullYear date in
  let month := int_add (getMonth date) (Some 1) in
  let day := getDate date in
  replaceAll "d" (toString day)
    (replaceAll "dd" (pad2 day)
      (replaceAll "M" (toString month)
        (replaceAll "MM" (pad2 month)
          (replaceAll "yyyy" (toString year) formatStr)))).

Definition getWeekOfMonth (date : Date) : option Z :=
  let firstDayOfMonth := newDate_ymd (getFullYear date) (getMonth date) (Some 1) in
  let dayOfMonth := getDate date in
  let firstDayOfWeek := getDay firstDayOfMonth in
  let daysInFirstWeek := int_sub (Some 7) firstDayOfWeek in
  if int_gt dayOfMonth daysInFirstWeek
  then int_add (ceil_div (int_sub dayOfMonth daysInFirstWeek) 7) (Some 1)
  else Some 1.

(** [now] is the date [new Date()] gives at the time of the call. *)
Definition getKstDateString (now : Date) : option string :=
  let kstTime := addHours now 9 in
  option_map (before_char "T") (toISOString kstTime).

(** What the documentation of [getWeekOfMonth] describes, written from its
    words rather than from its code: the week holding the 1st of the month
    is week 1 and has [7 - w] days, [w] being the weekday of the 1st of the
    month; the weeks after it have seven days each.  [tl] is a local time. *)
Definition firstWeekDayOfMonth (tl : Z) : Z :=
  WeekDay (MakeDate (MakeDay (YearFromTime tl) (MonthFromTime tl) 1) 0).

Definition weekOfMonth_documented (tl : Z) : Z :=
  let daysInFirstWeek := 7 - firstWeekDayOfMonth tl in
  let dayOfMonth := DateFromTime tl in
  if dayOfMonth <=? daysInFirstWeek then 1
  else - ((- (dayOfMonth - daysInFirstWeek)) / 7) + 1.

(** The calendar day a date string of the form [YYYY-MM-DD] names, read
    from its text: the year, the month counted from 0 as [getMonth] does,
    and the day of the month. *)
Definition namedDay (s : string) : Z * Z * Z :=
  (digits_value (substring 0 4 s),
   digits_value (substring 5 2 s) - 1,
   digits_value (substring 8 2 s)).

Definition isDateDisabled (date : Date) (startDateStr endDateStr : string)
    (today : Date) : bool :=
  let start := if negb (startDateStr =? "")%string then newDate_string startDateStr else today in
  let end_ := if negb (endDateStr =? "")%string then newDate_string endDateStr else today in
  let endIsToday := isSameDay end_ today in
  let isStartSameAsEnd := isSameDay start end_ in
  if isStartSameAsEnd then negb (isSameDay date start)
  else if endIsToday then negb (isSameDay date today)
  else date_lt date start || date_gt date end_ || date_lt date (subtractDays today 1).

Definition getDefaultOpenMonth (startDateStr endDateStr : string) (today : Date) : Date :=
  let start := if negb (startDateStr =? "")%string then newDate_string startDateStr else today in
  let end_ := if negb (endDateStr =? "")%string then newDate_string endDateStr else today in
  if date_lt start today then start
  else if date_gt end_ today then end_
  else today.

Definition getKoreanWeekOfMonth (date : Date) : string :=
  let year := toString (getFullYear date) in
  let month := toString (int_add (getMonth date) (Some 1)) in
  let week := getWeekOfMonth date in
  year ++ "년 " ++ month ++ "월 " ++ toString week ++ "주차".

(** What the documentation says of an epoch value, written from its words
    rather than from the code: a whole number that counts milliseconds
    when it is greater than 1,000,000,000,000 and seconds otherwise.  This
    is the time in milliseconds it stands for. *)
Definition epochMilliseconds_documented (z : Z) : Z :=
  if 1000000000000 <? z then z else z * 1000.

(** Nothing in the guarded block can throw on a string, a number or
    [undefined], so the handler of the [try] is never entered. *)
Definition formatSafeDate (dateValue : DateValue) (formatString : string) : string :=
  if negb (truthy dateValue) then "-"
  else
    let date :=
      if typeof_number dateValue || negb (isNaN (Number dateValue)) then
        let timestamp := Number dateValue in
        if num_gt timestamp (number_of_Z 1000000000000)
        then newDate_number timestamp
        else fromUnixTime timestamp
      else newDate_value dateValue in
    if negb (isValidDate date) then "-"
    else formatDate date formatString.

Definition dateToUnixEpoch (date : Date) : option Z :=
  floor_div (getTime date) 1000.

Definition unixEpochToMilliseconds (epochSeconds : number) : number :=
  num_mul epochSeconds (number_of_Z 1000).

Definition unixEpochToDate (epochSeconds : number) : Date :=
  newDate_number (num_mul epochSeconds (number_of_Z 1000)).

Definition epochMillisecondsToDate (epochMilliseconds : number) : Date :=
  newDate_number epochMilliseconds.

Definition formatEpochMilliseconds (epochMilliseconds : number) (format : string) : string :=
  let date := newDate_number epochMilliseconds in
  let year := getFullYear date in
  let month := pad2 (int_add (getMonth date) (Some 1)) in
  let day := pad2 (getDate date) in
  replaceAll "dd" day
    (replaceAll "MM" month
      (replaceAll "yyyy" (toString year) format)).


(** * Facts about the time arithmetic *)

Lemma DayFromYear_step y : DayFromYear (y + 1) = DayFromYear y + DaysInYear y.
Proof.
  unfold DayFromYear, DaysInYear.
  destruct (Z.eqb_spec (y mod 4) 0); destruct (Z.eqb_spec (y mod 100) 0);
    destruct (Z.eqb_spec (y mod 400) 0); simpl negb; cbv iota;
    Z.div_mod_to_equations; lia.
Qed.

Lemma DaysInYear_cases y : DaysInYear y = 365 \/ DaysInYear y = 366.
Proof.
  unfold DaysInYear.
  destruct (y mod 4 =? 0), (y mod 100 =? 0), (y mod 400 =? 0); simpl; auto.
Qed.

(** The year of a day is the one whose first day is the latest not after it. *)
Lemma YearFromDay_spec n :
  DayFromYear (YearFromDay n) <= n < DayFromYear (YearFromDay n + 1).
Proof.
  unfold YearFromDay. cbv zeta.
  set (y0 := 1970 + 400 * n / 146097).
  assert (H0 : DayFromYear (y0 - 1) <= n < DayFromYear (y0 + 2)).
  { unfold DayFromYear. subst y0. Z.div_mod_to_equations. lia. }
  destruct (Z.ltb_spec n (DayFromYear y0)) as [H1|H1].
  - replace (y0 - 1 + 1) with y0 by lia. lia.
  - destruct (Z.leb_spec (DayFromYear (y0 + 1)) n) as [H2|H2].
    + replace (y0 + 1 + 1) with (y0 + 2) by lia. lia.
    + lia.
Qed.

Lemma DayWithinYear_bounds t :
  0 <= DayWithinYear t < 365 + InLeapYear t.
Proof.
  unfold DayWithinYear, InLeapYear, YearFromTime.
  pose proof (YearFromDay_spec (Day t)) as H.
  rewrite DayFromYear_step in H.
  destruct (DaysInYear_cases (YearFromDay (Day t))) as [E|E]; rewrite E in *;
    simpl; lia.
Qed.

Lemma InLeapYear_cases t : InLeapYear t = 0 \/ InLeapYear t = 1.
Proof. unfold InLeapYear. destruct (_ =? 366); auto. Qed.

Ltac split_ltb :=
  repeat match goal with
         | |- context [?a <? ?b] => destruct (Z.ltb_spec a b)
         end.

Lemma MonthFromTime_bounds t : 0 <= MonthFromTime t <= 11.
Proof. unfold MonthFromTime. cbv zeta. split_ltb; lia. Qed.

Lemma DateFromTime_bounds t : 1 <= DateFromTime t <= 31.
Proof.
  unfold DateFromTime, MonthFromTime. cbv zeta.
  pose proof (DayWithinYear_bounds t) as Hb.
  destruct (InLeapYear_cases t) as [E|E]; rewrite E in *;
    split_ltb; cbn; lia.
Qed.

(** [MakeDay] undoes the decomposition of a time into year, month and date,
    and a date past the end of the month runs into the following days. *)
Lemma MakeDay_decompose t k :
  MakeDay (YearFromTime t) (MonthFromTime t) (DateFromTime t + k) = Day t + k.
Proof.
  pose proof (MonthFromTime_bounds t) as Hm.
  unfold MakeDay. cbv zeta.
  replace (MonthFromTime t / 12) with 0 by (symmetry; apply Z.div_small; lia).
  rewrite Z.mod_small by lia. rewrite Z.add_0_r.
  fold (InLeapYear t).
  unfold DateFromTime, DayWithinYear. lia.
Qed.

Lemma WeekDay_bounds t : 0 <= WeekDay t <= 6.
Proof. unfold WeekDay. pose proof (Z.mod_pos_bound (Day t + 4) 7). lia. Qed.

Lemma Day_shift t k : Day (t + k * msPerDay) = Day t + k.
Proof. unfold Day. apply Z.div_add. unfold msPerDay. lia. Qed.

Lemma TimeWithinDay_shift t k : TimeWithinDay (t + k * msPerDay) = TimeWithinDay t.
Proof. unfold TimeWithinDay. apply Z.mod_add. unfold msPerDay. lia. Qed.

Lemma MakeDate_Day t : MakeDate (Day t) (TimeWithinDay t) = t.
Proof.
  unfold MakeDate, Day, TimeWithinDay.
  pose proof (Z.div_mod t msPerDay). unfold msPerDay in *. lia.
Qed.

Lemma WeekDay_shift t k : WeekDay (t + k * msPerDay) = (WeekDay t + k) mod 7.
Proof.
  unfold WeekDay. rewrite Day_shift.
  rewrite Zplus_mod_idemp_l. f_equal. lia.
Qed.

(** * Facts about the weekday tables *)

Lemma indexOf_from_bounds a x : forall i,
  indexOf_from i a x = -1 \/
  i <= indexOf_from i a x < i + Z.of_nat (List.length a).
Proof.
  induction a as [|y a IH]; intros i; simpl; [left; reflexivity|].
  destruct (y =? x)%string; [right; lia|].
  destruct (IH (i + 1)) as [H|H]; [left; exact H|right; lia].
Qed.

Lemma DAY_MAPPINGS_at_length format : List.length (DAY_MAPPINGS_at format) = 7%nat.
Proof. destruct format; reflexivity. Qed.

Lemma findDay_bounds day : forall formats format index,
  findDay formats day = Some (format, index) -> 0 <= index <= 6.
Proof.
  induction formats as [|f fs IH]; intros format index H; simpl in H; [discriminate|].
  destruct (Z.eqb_spec (indexOf (DAY_MAPPINGS_at f) day) (-1)) as [E|E]; simpl in H.
  - eapply IH; eassumption.
  - injection H as _ Hi. subst index.
    destruct (indexOf_from_bounds (DAY_MAPPINGS_at f) day 0) as [B|B];
      [contradiction|].
    rewrite DAY_MAPPINGS_at_length in B. unfold indexOf. lia.
Qed.

Lemma getDayIndex_bounds day index :
  getDayIndex day = Some index -> 0 <= index <= 6.
Proof.
  unfold getDayIndex.
  destruct (findDay (Object_keys DAY_MAPPINGS) day) as [[f i]|] eqn:E; [|discriminate].
  intros H; inversion H; subst. eapply findDay_bounds; eassumption.
Qed.

(** * Facts about the date module *)

(** Setting the day of the month to the current one plus [k] moves the
    date by [k] whole days, when the result is a representable time. *)
Lemma setDate_shift t k :
  setDate (Some t) (int_add (getDate (Some t)) (Some k)) = TimeClip (t + k * msPerDay).
Proof.
  unfold setDate, getDate. simpl.
  rewrite MakeDay_decompose. f_equal.
  unfold UTC, LocalTime, MakeDate.
  pose proof (MakeDate_Day (t + LocalTZA)) as H. unfold MakeDate in H. lia.
Qed.

Lemma getDay_shift t k :
  getDay (Some (t + k * msPerDay)) = Some ((WeekDay (LocalTime t) + k) mod 7).
Proof.
  unfold getDay, LocalTime. simpl. f_equal.
  replace (t + k * msPerDay + LocalTZA) with (t + LocalTZA + k * msPerDay) by lia.
  apply WeekDay_shift.
Qed.

Lemma TimeClip_in_range t : Z.abs t <= maxTime -> TimeClip t = Some t.
Proof. intros H. unfold TimeClip. apply Z.leb_le in H. rewrite H. reflexivity. Qed.

Lemma next_offset_forward k c :
  0 <= k <= 6 -> 0 <= c <= 6 ->
  let n := Z.rem (k - c + 7) 7 in
  let n' := if n =? 0 then 7 else n in
  1 <= n' <= 7 /\ (c + n') mod 7 = k /\ (c = k -> n' = 7).
Proof.
  intros Hk Hc n n'. subst n n'.
  rewrite Z.rem_mod_nonneg by lia.
  destruct (Z.eqb_spec ((k - c + 7) mod 7) 0) as [E|E];
    Z.div_mod_to_equations; lia.
Qed.

Lemma next_offset_backward k c :
  0 <= k <= 6 -> 0 <= c <= 6 ->
  let n := Z.rem (k - c - 7) 7 in
  let n' := if n =? 0 then -7 else n in
  -7 <= n' <= -1 /\ (c + n') mod 7 = k /\ (c = k -> n' = -7).
Proof.
  intros Hk Hc n n'. subst n n'.
  replace (k - c - 7) with (- (c - k + 7)) by lia.
  rewrite Z.rem_opp_l by lia.
  rewrite Z.rem_mod_nonneg by lia.
  destruct (Z.eqb_spec (- ((c - k + 7) mod 7)) 0) as [E|E];
    Z.div_mod_to_equations; lia.
Qed.



(** ** Week of the month *)

Ltac int_simpl :=
  cbn [option_map int_gt int_lt int_sub int_add int_eq int_rem ceil_div floor_div
       getTime getFullYear getMonth getDate getDay].

Lemma WeekDay_MakeDate day :
  WeekDay (LocalTime (UTC (MakeDate day 0))) = (day + 4) mod 7.
Proof.
  unfold WeekDay, Day, MakeDate, LocalTime, UTC.
  replace (day * msPerDay + 0 - LocalTZA + LocalTZA) with (day * msPerDay) by lia.
  rewrite Z.div_mul by (unfold msPerDay; lia). reflexivity.
Qed.

Lemma getWeekOfMonth_bounds (date : Date) :
  exists w, getWeekOfMonth date = Some w /\ 1 <= w <= 6.
Proof.
  destruct date as [t|]; [|exists 1; split; [reflexivity|lia]].
  unfold getWeekOfMonth, newDate_ymd. int_simpl. cbv zeta.
  pose proof (DateFromTime_bounds (LocalTime t)) as Hd.
  destruct (TimeClip _) as [f|]; int_simpl;
    [|exists 1; split; [reflexivity|lia]].
  pose proof (WeekDay_bounds (LocalTime f)) as Hw.
  destruct (Z.ltb_spec (7 - WeekDay (LocalTime f)) (DateFromTime (LocalTime t))) as [H|H].
  - eexists; split; [reflexivity|].
    Z.div_mod_to_equations. lia.
  - exists 1; split; [reflexivity|lia].
Qed.

(** C10.  The week of the month is a whole number between 1 and 6, for every
    date: the first week has at least one day and a month at most 31. *)
Theorem getWeekOfMonth_range (date : Date) :
  exists w, getWeekOfMonth date = Some w /\ 1 <= w <= 6.
Proof. exact (getWeekOfMonth_bounds date). Qed.

(** Outside the years 0 to 99, and for a month whose first day is a
    representable time, the code computes the documented week. *)
Lemma getWeekOfMonth_documented t :
  ~ (0 <= YearFromTime (LocalTime t) <= 99) ->
  Z.abs t + 31 * msPerDay <= maxTime ->
  getWeekOfMonth (Some t) = Some (weekOfMonth_documented (LocalTime t)).
Proof.
  intros Hy Hr.
  unfold getWeekOfMonth, newDate_ymd. int_simpl. cbv zeta.
  pose proof (DateFromTime_bounds (LocalTime t)) as Hd.
  assert (Hfy : MakeFullYear (YearFromTime (LocalTime t)) = YearFromTime (LocalTime t)).
  { unfold MakeFullYear.
    destruct (Z.leb_spec 0 (YearFromTime (LocalTime t)));
      destruct (Z.leb_spec (YearFromTime (LocalTime t)) 99); simpl; lia. }
  rewrite Hfy.
  pose proof (MakeDay_decompose (LocalTime t) (1 - DateFromTime (LocalTime t))) as Hmd.
  replace (DateFromTime (LocalTime t) + (1 - DateFromTime (LocalTime t))) with 1 in Hmd by lia.
  rewrite TimeClip_in_range.
  2:{ rewrite Hmd. unfold UTC, MakeDate.
      pose proof (MakeDate_Day (LocalTime t)) as Hs. unfold MakeDate in Hs.
      pose proof (Z.mod_pos_bound (LocalTime t) msPerDay ltac:(unfold msPerDay; lia)) as Hb.
      fold (TimeWithinDay (LocalTime t)) in Hb.
      unfold LocalTime in *. unfold msPerDay, maxTime in *. lia. }
  int_simpl. rewrite WeekDay_MakeDate.
  unfold weekOfMonth_documented, firstWeekDayOfMonth. cbv zeta.
  replace (WeekDay (MakeDate (MakeDay (YearFromTime (LocalTime t)) (MonthFromTime (LocalTime t)) 1) 0))
    with ((MakeDay (YearFromTime (LocalTime t)) (MonthFromTime (LocalTime t)) 1 + 4) mod 7).
  2:{ unfold WeekDay, Day, MakeDate. rewrite Z.add_0_r.
      rewrite Z.div_mul by (unfold msPerDay; lia). reflexivity. }
  set (w := (MakeDay _ _ 1 + 4) mod 7).
  destruct (Z.ltb_spec (7 - w) (DateFromTime (LocalTime t)));
    destruct (Z.leb_spec (DateFromTime (LocalTime t)) (7 - w)); try lia; reflexivity.
Qed.

(** The 1st of a month is always in week 1. *)
Lemma getWeekOfMonth_first date :
  getDate date = Some 1 -> getWeekOfMonth date = Some 1.
Proof.
  intros H1.
  unfold getWeekOfMonth. cbv zeta. rewrite H1.
  destruct (newDate_ymd _ _ _) as [f|]; int_simpl; [|reflexivity].
  pose proof (WeekDay_bounds (LocalTime f)).
  destruct (Z.ltb_spec (7 - WeekDay (LocalTime f)) 1); [lia|reflexivity].
Qed.

(** ** The nearest weekday *)

(** C3 (as amended).  For a base date at least seven days inside the range
    of representable times: an unknown weekday name gives [null]; a known
    one gives the base date moved by a whole number of days, between 1 and
    7 when searching forward and between -7 and -1 when searching backward,
    the weekday of the result is the target, and a base date that already
    falls on the target is moved by a full week. *)
Theorem getNextDayOfWeek_offset targetDay t (searchForward : bool) :
  Z.abs t + 7 * msPerDay <= maxTime ->
  match getDayIndex targetDay with
  | None => getNextDayOfWeek targetDay (Some t) searchForward = None
  | Some k =>
      exists n,
        getNextDayOfWeek targetDay (Some t) searchForward
          = Some (Some (t + n * msPerDay)) /\
        (if searchForward then 1 <= n <= 7 else -7 <= n <= -1) /\
        getDay (Some (t + n * msPerDay)) = Some k /\
        (getDay (Some t) = Some k -> n = if searchForward then 7 else -7)
  end.
Proof.
  intros Hr. unfold getNextDayOfWeek.
  destruct (getDayIndex targetDay) as [k|] eqn:Ek; [|reflexivity].
  apply getDayIndex_bounds in Ek.
  pose proof (WeekDay_bounds (LocalTime t)) as Hc.
  unfold newDate_copy. cbv zeta.
  destruct searchForward.
  - destruct (next_offset_forward k (WeekDay (LocalTime t)) Ek Hc) as (Hn & Hw & Hs).
    cbv zeta in Hn, Hw, Hs.
    set (n := if Z.rem (k - WeekDay (LocalTime t) + 7) 7 =? 0 then 7
              else Z.rem (k - WeekDay (LocalTime t) + 7) 7) in *.
    exists n.
    assert (E : (if int_eq (int_rem (int_add (int_sub (Some k) (getDay (Some t))) (Some 7)) (Some 7)) (Some 0)
                 then Some 7
                 else int_rem (int_add (int_sub (Some k) (getDay (Some t))) (Some 7)) (Some 7))
                = Some n).
    { int_simpl. change (7 =? 0) with false. cbv iota. int_simpl. subst n.
      destruct (Z.rem (k - WeekDay (LocalTime t) + 7) 7 =? 0); reflexivity. }
    rewrite E. rewrite setDate_shift.
    rewrite TimeClip_in_range by (unfold msPerDay, maxTime in *; lia).
    repeat split; try lia.
    + rewrite getDay_shift. rewrite Hw. reflexivity.
    + int_simpl. intros Hk. injection Hk as Hk. auto.
  - destruct (next_offset_backward k (WeekDay (LocalTime t)) Ek Hc) as (Hn & Hw & Hs).
    cbv zeta in Hn, Hw, Hs.
    set (n := if Z.rem (k - WeekDay (LocalTime t) - 7) 7 =? 0 then -7
              else Z.rem (k - WeekDay (LocalTime t) - 7) 7) in *.
    exists n.
    assert (E : (if int_eq (int_rem (int_sub (int_sub (Some k) (getDay (Some t))) (Some 7)) (Some 7)) (Some 0)
                 then Some (-7)
                 else int_rem (int_sub (int_sub (Some k) (getDay (Some t))) (Some 7)) (Some 7))
                = Some n).
    { int_simpl. change (7 =? 0) with false. cbv iota. int_simpl. subst n.
      destruct (Z.rem (k - WeekDay (LocalTime t) - 7) 7 =? 0); reflexivity. }
    rewrite E. rewrite setDate_shift.
    rewrite TimeClip_in_range by (unfold msPerDay, maxTime in *; lia).
    repeat split; try lia.
    + rewrite getDay_shift. rewrite Hw. reflexivity.
    + int_simpl. intros Hk. injection Hk as Hk. auto.
Qed.

(** ** The range rules of the date picker *)

Lemma isSameDay_calendarDay a b :
  isSameDay (Some a) (Some b) = true <-> calendarDay a = calendarDay b.
Proof.
  unfold isSameDay, calendarDay. int_simpl.
  rewrite !andb_true_iff, !Z.eqb_eq. split.
  - intros [[-> ->] ->]. reflexivity.
  - intros H. injection H as -> -> ->. auto.
Qed.

Lemma isSameDay_invalid_r date : isSameDay date None = false.
Proof. destruct date; reflexivity. Qed.

Lemma date_lt_earlier a b : date_lt a b = true <-> earlier a b.
Proof.
  unfold date_lt, earlier, getTime. destruct a as [x|], b as [y|]; simpl.
  - rewrite Z.ltb_lt. split.
    + intros H. exists x, y. auto.
    + intros (x' & y' & Ex & Ey & H). injection Ex as <-. injection Ey as <-. exact H.
  - split; [discriminate|]. intros (x' & y' & _ & E & _). discriminate.
  - split; [discriminate|]. intros (x' & y' & E & _). discriminate.
  - split; [discriminate|]. intros (x' & y' & E & _). discriminate.
Qed.

(** C5.  The month to open is the start of the range when it lies before
    today, and then the end of the range plays no part; failing that the
    end of the range when it lies after today; failing that today. *)
Theorem getDefaultOpenMonth_first_match s e today :
  let start := if negb (s =? "")%string then newDate_string s else today in
  let end_ := if negb (e =? "")%string then newDate_string e else today in
  (earlier start today ->
     forall e', getDefaultOpenMonth s e' today = start) /\
  (~ earlier start today -> earlier today end_ ->
     getDefaultOpenMonth s e today = end_) /\
  (~ earlier start today -> ~ earlier today end_ ->
     getDefaultOpenMonth s e today = today).
Proof.
  intros start end_. unfold getDefaultOpenMonth. cbv zeta. fold start. fold end_.
  repeat split.
  - intros H e'. apply date_lt_earlier in H. rewrite H. reflexivity.
  - intros H1 H2.
    destruct (date_lt start today) eqn:E1; [apply date_lt_earlier in E1; contradiction|].
    apply date_lt_earlier in H2. unfold date_gt, int_gt. unfold date_lt in H2.
    rewrite H2. reflexivity.
  - intros H1 H2.
    destruct (date_lt start today) eqn:E1; [apply date_lt_earlier in E1; contradiction|].
    destruct (date_gt end_ today) eqn:E2; [|reflexivity].
    exfalso. apply H2. apply date_lt_earlier. exact E2.
Qed.

(** ** Weekday names *)

(** C7.  Every entry of the six weekday tables is found again at its own
    index by the search through the tables. *)
Theorem getDayIndex_roundtrip format i :
  0 <= i <= 6 ->
  exists name,
    array_get (DAY_MAPPINGS_at format) (Some i) = Some name /\
    getDayIndex name = Some i.
Proof.
  intros Hi.
  assert (Hc : i = 0 \/ i = 1 \/ i = 2 \/ i = 3 \/ i = 4 \/ i = 5 \/ i = 6) by lia.
  destruct Hc as [-> | [-> | [-> | [-> | [-> | [-> | ->]]]]]];
    destruct format; eexists; split; reflexivity.
Qed.

(** ** Rounding to binary64 *)

Lemma floorLog2_integer n : 0 < n -> floorLog2 n 1 = Z.log2 n.
Proof.
  intros H. unfold floorLog2. change (Z.log2 1) with 0. rewrite Z.sub_0_r.
  pose proof (Z.log2_nonneg n) as H0.
  destruct (Z.log2_spec n H) as [Hl _].
  destruct (Z.leb_spec 0 (Z.log2 n)); [|lia].
  destruct (Z.leb_spec (1 * 2 ^ Z.log2 n) n); [reflexivity|lia].
Qed.

Lemma roundHalfEven_1 n : roundHalfEven n 1 = n.
Proof. unfold roundHalfEven. rewrite Z.mod_1_r, Z.div_1_r. reflexivity. Qed.

Lemma roundHalfEven_floor n d : 0 < d -> n / d <= roundHalfEven n d.
Proof.
  intros _. unfold roundHalfEven. cbv zeta.
  destruct (2 * (n mod d) ?= d); [destruct (Z.even (n / d))| |]; lia.
Qed.

Lemma Qred_inject_Z n : Qred (inject_Z n) = inject_Z n.
Proof.
  unfold Qred, inject_Z.
  pose proof (Z.ggcd_gcd n 1) as Hg.
  pose proof (Z.ggcd_correct_divisors n 1) as Hd.
  destruct (Z.ggcd n 1) as [g [aa bb]]. cbn [fst snd] in *.
  rewrite Z.gcd_1_r in Hg. subst g. destruct Hd as [Ha Hb].
  f_equal; [lia|]. replace bb with 1 by lia. reflexivity.
Qed.

Lemma Qred_integer n p : 0 < p -> Qred (Qmake (n * p) (Z.to_pos p)) = inject_Z n.
Proof.
  intros H.
  rewrite (Qred_complete (Qmake (n * p) (Z.to_pos p)) (inject_Z n)).
  - apply Qred_inject_Z.
  - unfold Qeq, inject_Z. cbn [Qnum Qden]. rewrite Z2Pos.id by exact H. lia.
Qed.

Lemma pow2_53 : 2 ^ 53 = 9007199254740992.
Proof. reflexivity. Qed.

(** An integer below [2 ^ 53] in magnitude is a binary64 value. *)
Lemma roundToBinary64_integer z :
  Z.abs z < 2 ^ 53 -> roundToBinary64 (inject_Z z) = Finite (inject_Z z).
Proof.
  intros Hz. unfold roundToBinary64. cbn [inject_Z Qnum Qden]. cbv zeta.
  destruct (Z.eqb_spec (Z.abs z) 0) as [E|Hne].
  { replace z with 0 by lia. reflexivity. }
  set (n := Z.abs z) in *.
  assert (Hn : 0 < n) by lia.
  rewrite (floorLog2_integer n Hn).
  pose proof (Z.log2_nonneg n) as He0.
  assert (He : Z.log2 n < 53) by (apply Z.log2_lt_pow2; assumption).
  set (e := Z.log2 n) in *.
  rewrite (Z.max_l (e - 52) (-1074)) by lia.
  rewrite (Z.max_l (- (e - 52)) 0) by lia.
  rewrite (Z.max_r (e - 52) 0) by lia.
  change (1 * 2 ^ 0) with 1. rewrite roundHalfEven_1.
  assert (Hsign : (if z <? 0 then Qopp (inject_Z n) else inject_Z n) = inject_Z z).
  { unfold Qopp, inject_Z. cbn [Qnum Qden].
    destruct (Z.ltb_spec z 0); f_equal; lia. }
  destruct (Z.leb_spec 0 (e - 52)) as [Hu|Hu].
  - assert (E : e - 52 = 0) by lia. rewrite E.
    change (- 0) with 0. change (2 ^ 0) with 1. rewrite !Z.mul_1_r.
    assert (Hlt : n < 2 ^ 1024).
    { apply Z.lt_trans with (2 ^ 53); [exact Hz|].
      apply Z.pow_lt_mono_r; lia. }
    destruct (Z.leb_spec (2 ^ 1024) n); [lia|].
    cbn [andb]. rewrite Hsign. reflexivity.
  - cbn [andb].
    rewrite Qred_integer by (apply Z.pow_pos_nonneg; lia).
    rewrite Hsign. reflexivity.
Qed.

(** An integer of [2 ^ 53] or more in magnitude rounds to an integer of
    [2 ^ 53] or more in magnitude, or to an infinity, of its sign. *)
Lemma roundToBinary64_large z :
  2 ^ 53 <= Z.abs z ->
  roundToBinary64 (inject_Z z) = Infinity (z <? 0) \/
  exists M, 2 ^ 53 <= M /\
    roundToBinary64 (inject_Z z) = Finite (inject_Z (if z <? 0 then - M else M)).
Proof.
  intros Hz. unfold roundToBinary64. cbn [inject_Z Qnum Qden]. cbv zeta.
  rewrite pow2_53 in Hz.
  destruct (Z.eqb_spec (Z.abs z) 0) as [E|_]; [lia|].
  set (n := Z.abs z) in *.
  assert (Hn : 0 < n) by lia.
  rewrite (floorLog2_integer n Hn).
  assert (He : 53 <= Z.log2 n).
  { apply Z.log2_le_pow2; [exact Hn|]. rewrite pow2_53. exact Hz. }
  destruct (Z.log2_spec n Hn) as [Hlo _].
  set (e := Z.log2 n) in *.
  rewrite (Z.max_l (e - 52) (-1074)) by lia.
  rewrite (Z.max_r (- (e - 52)) 0) by lia.
  rewrite (Z.max_l (e - 52) 0) by lia.
  change (2 ^ 0) with 1. rewrite Z.mul_1_r, Z.mul_1_l.
  set (u := e - 52) in *.
  assert (Hp : 0 < 2 ^ u) by (apply Z.pow_pos_nonneg; lia).
  pose proof (roundHalfEven_floor n (2 ^ u) Hp) as Hm.
  assert (Hq : 2 ^ 52 <= n / 2 ^ u).
  { apply Z.div_le_lower_bound; [exact Hp|].
    rewrite Z.mul_comm, <- Z.pow_add_r by lia.
    replace (52 + u) with e by (subst u; lia). exact Hlo. }
  set (m := roundHalfEven n (2 ^ u)) in *.
  assert (Hbig : 2 ^ 53 <= m * 2 ^ u).
  { replace 53 with (52 + 1) by reflexivity. rewrite Z.pow_add_r by lia.
    change (2 ^ 1) with 2.
    assert (2 <= 2 ^ u).
    { change 2 with (2 ^ 1) at 1. apply Z.pow_le_mono_r; lia. }
    assert (0 < 2 ^ 52) by (apply Z.pow_pos_nonneg; lia).
    nia. }
  destruct ((0 <=? u) && (2 ^ 1024 <=? m * 2 ^ u)); [left; reflexivity|].
  right. exists (m * 2 ^ u). split; [exact Hbig|].
  destruct (Z.leb_spec 0 u); [|lia].
  destruct (z <? 0); reflexivity.
Qed.

Lemma TimeClip_out_of_range t : maxTime < Z.abs t -> TimeClip t = None.
Proof.
  intros H. unfold TimeClip. destruct (Z.leb_spec (Z.abs t) maxTime); [lia|reflexivity].
Qed.

Lemma TimeClipNumber_of_Z z :
  TimeClipNumber (number_of_Z z) = TimeClip z.
Proof.
  unfold TimeClipNumber, TimeClip, number_of_Z, Qle_bool, Qabs, inject_Z.
  cbn [Qnum Qden]. rewrite !Z.mul_1_r, Z.quot_1_r. reflexivity.
Qed.

Lemma num_mul_of_Z a b :
  num_mul (number_of_Z a) (number_of_Z b) = roundToBinary64 (inject_Z (a * b)).
Proof. reflexivity. Qed.

Lemma TimeClipNumber_round z :
  TimeClipNumber (roundToBinary64 (inject_Z z)) = TimeClip z.
Proof.
  destruct (Z.lt_ge_cases (Z.abs z) (2 ^ 53)) as [H|H].
  - rewrite roundToBinary64_integer by exact H. apply TimeClipNumber_of_Z.
  - assert (Hout : TimeClip z = None).
    { rewrite pow2_53 in H. unfold TimeClip.
      destruct (Z.leb_spec (Z.abs z) maxTime) as [Hc|]; [|reflexivity].
      unfold maxTime in Hc. lia. }
    rewrite Hout.
    destruct (roundToBinary64_large z H) as [E|(M & HM & E)]; rewrite E; [reflexivity|].
    rewrite pow2_53 in HM.
    unfold TimeClipNumber, Qle_bool, Qabs, inject_Z. cbn [Qnum Qden].
    match goal with
    | |- (if ?a <=? ?b then _ else _) = _ =>
        destruct (Z.leb_spec a b) as [Hc|]; [|reflexivity]
    end.
    unfold maxTime in Hc. destruct (z <? 0); lia.
Qed.

Lemma TimeClipNumber_seconds z :
  TimeClipNumber (num_mul (number_of_Z z) (number_of_Z 1000)) = TimeClip (z * 1000).
Proof. rewrite num_mul_of_Z. apply TimeClipNumber_round. Qed.

(** ** Epoch conversions *)

(** C8.  Within the range of representable times, a whole number of
    seconds survives the conversion to a date and back. *)
Theorem dateToUnixEpoch_unixEpochToDate s :
  Z.abs (s * 1000) <= maxTime ->
  dateToUnixEpoch (unixEpochToDate (number_of_Z s)) = Some s.
Proof.
  intros H.
  unfold unixEpochToDate, newDate_number.
  rewrite TimeClipNumber_seconds, TimeClip_in_range by exact H.
  unfold dateToUnixEpoch, getTime, floor_div.
  rewrite Z.div_mul by lia. reflexivity.
Qed.

(** * Facts about global replacement *)

Lemma drop_nil k : drop k "" = "".
Proof. destruct k; reflexivity. Qed.

Lemma replaceAll_from_drop pat rep s : forall k,
  replaceAll_from pat rep k s = replaceAll pat rep (drop k s).
Proof.
  induction s as [|c s IH]; intros k.
  - rewrite drop_nil. reflexivity.
  - destruct k as [|k]; [reflexivity|]. simpl. apply IH.
Qed.

Lemma prefix_cons_eq a p s : prefix (String a p) (String a s) = prefix p s.
Proof. simpl. destruct (ascii_dec a a); [reflexivity|contradiction]. Qed.

Lemma prefix_cons_ne a c p s : c <> a -> prefix (String a p) (String c s) = false.
Proof. intros H. simpl. destruct (ascii_dec a c); [subst; contradiction|reflexivity]. Qed.

Lemma prefix_drop p : forall s,
  prefix p s = true -> s = p ++ drop (String.length p) s.
Proof.
  induction p as [|a p IH]; intros s H; [reflexivity|].
  destruct s as [|c s]; [discriminate|].
  simpl in H. destruct (ascii_dec a c) as [->|]; [|discriminate].
  simpl. f_equal. apply IH. exact H.
Qed.

Lemma prefix_drop_length p : forall s,
  prefix p s = true ->
  (String.length (drop (String.length p) s) + String.length p = String.length s)%nat.
Proof.
  induction p as [|a p IH]; intros s H; [simpl; lia|].
  destruct s as [|c s]; [discriminate|].
  simpl in H. destruct (ascii_dec a c) as [->|]; [|discriminate].
  simpl. rewrite <- (IH s H). lia.
Qed.

(** A match at the head is replaced and the search goes on behind it. *)
Lemma replaceAll_match a p rep s :
  prefix (String a p) s = true ->
  replaceAll (String a p) rep s
    = rep ++ replaceAll (String a p) rep (drop (String.length (String a p)) s).
Proof.
  intros H. destruct s as [|c s]; [discriminate|].
  unfold replaceAll at 1. cbn [replaceAll_from]. rewrite H.
  rewrite replaceAll_from_drop. reflexivity.
Qed.

Lemma prefix_append p s : prefix p (p ++ s) = true.
Proof.
  induction p as [|a p IH]; [destruct s; reflexivity|].
  simpl. destruct (ascii_dec a a); [exact IH|contradiction].
Qed.

Lemma drop_append p s : drop (String.length p) (p ++ s) = s.
Proof. induction p as [|a p IH]; [destruct s; reflexivity|exact IH]. Qed.

Lemma replaceAll_match_append a p rep s :
  replaceAll (String a p) rep (String a p ++ s)
    = rep ++ replaceAll (String a p) rep s.
Proof.
  rewrite replaceAll_match by apply prefix_append.
  rewrite drop_append. reflexivity.
Qed.

Lemma replaceAll_nomatch pat rep c s :
  prefix pat (String c s) = false ->
  replaceAll pat rep (String c s) = String c (replaceAll pat rep s).
Proof. intros H. unfold replaceAll. cbn [replaceAll_from]. rewrite H. reflexivity. Qed.

Lemma replaceAll_skip a p rep c s :
  c <> a ->
  replaceAll (String a p) rep (String c s) = String c (replaceAll (String a p) rep s).
Proof. intros H. apply replaceAll_nomatch. apply prefix_cons_ne. exact H. Qed.

Lemma append_assoc (a b c : string) : (a ++ b) ++ c = a ++ (b ++ c).
Proof. induction a as [|x a IH]; simpl; [reflexivity|]. f_equal. exact IH. Qed.

(** Text free of the first character of the pattern is passed over. *)
Lemma replaceAll_pass a p rep u s :
  avoids a u = true ->
  replaceAll (String a p) rep (u ++ s) = u ++ replaceAll (String a p) rep s.
Proof.
  induction u as [|c u IH]; intros H; [reflexivity|].
  simpl in H. apply andb_true_iff in H as [Hc Hu].
  simpl. rewrite replaceAll_skip.
  - f_equal. apply IH. exact Hu.
  - intros ->. rewrite Ascii.eqb_refl in Hc. discriminate.
Qed.

Lemma prefix_single_false x s : prefix (String x "") s = false -> head_ne x s.
Proof.
  destruct s as [|c s]; [intros _; exact I|].
  cbn [prefix head_ne].
  destruct (ascii_dec x c) as [->|H].
  - destruct s; intros E; discriminate E.
  - intros _ E. apply H. symmetry. exact E.
Qed.

Lemma head_ne_prefix x p s : head_ne x s -> prefix (String x p) s = false.
Proof.
  destruct s as [|c s]; simpl; [reflexivity|].
  intros H. destruct (ascii_dec x c) as [->|]; [contradiction|reflexivity].
Qed.

Lemma head_ne_append x u s : u <> "" -> avoids x u = true -> head_ne x (u ++ s).
Proof.
  destruct u as [|c u]; [contradiction|]. intros _ H. simpl in *.
  apply andb_true_iff in H as [Hc _]. intros ->.
  rewrite Ascii.eqb_refl in Hc. discriminate.
Qed.

(** Replacing by a non-empty text free of [x] cannot bring [x] to the head. *)
Lemma head_ne_replaceAll x pat rep s :
  rep <> "" -> avoids x rep = true ->
  head_ne x s -> head_ne x (replaceAll pat rep s).
Proof.
  intros Hr Ha Hs. destruct s as [|c s]; [exact I|].
  unfold replaceAll. cbn [replaceAll_from].
  destruct (prefix pat (String c s)).
  - apply head_ne_append; assumption.
  - exact Hs.
Qed.

Lemma formatTokens_from_drop y mm m dd d s : forall k,
  formatTokens_from y mm m dd d k s = formatTokens y mm m dd d (drop k s).
Proof.
  induction s as [|c s IH]; intros k.
  - rewrite drop_nil. reflexivity.
  - destruct k as [|k]; [reflexivity|]. simpl. apply IH.
Qed.

Section Tokens.

(** The five texts put in place of the tokens: none is empty and none
    holds a character a token is made of. *)
Variables y mm m dd d : string.

Hypothesis y_text : token_text y.
Hypothesis mm_text : token_text mm.
Hypothesis m_text : token_text m.
Hypothesis dd_text : token_text dd.
Hypothesis d_text : token_text d.

Lemma replaceTokens_text u s :
  token_text u -> replaceTokens y mm m dd d (u ++ s) = u ++ replaceTokens y mm m dd d s.
Proof.
  intros (_ & Hy & HM & Hd). unfold replaceTokens.
  rewrite (replaceAll_pass "y") by assumption.
  rewrite (replaceAll_pass "M") by assumption.
  rewrite (replaceAll_pass "M") by assumption.
  rewrite (replaceAll_pass "d") by assumption.
  rewrite (replaceAll_pass "d") by assumption.
  reflexivity.
Qed.

Lemma replaceTokens_char c s :
  c <> "y"%char -> c <> "M"%char -> c <> "d"%char ->
  replaceTokens y mm m dd d (String c s) = String c (replaceTokens y mm m dd d s).
Proof.
  intros Hy HM Hd. unfold replaceTokens.
  rewrite !replaceAll_skip by assumption. reflexivity.
Qed.

Ltac text_facts :=
  destruct y_text as (y_ne & y_y & y_M & y_d);
  destruct mm_text as (mm_ne & mm_y & mm_M & mm_d);
  destruct m_text as (m_ne & m_y & m_M & m_d);
  destruct dd_text as (dd_ne & dd_y & dd_M & dd_d);
  destruct d_text as (d_ne & d_y & d_M & d_d).

(** The five global replacements, made one after the other in the order of
    the code, amount to one reading of the format string. *)
Lemma replaceTokens_formatTokens : forall n s,
  (String.length s <= n)%nat ->
  replaceTokens y mm m dd d s = formatTokens y mm m dd d s.
Proof.
  text_facts.
  induction n as [|n IH]; intros s Hn.
  { destruct s; [reflexivity|simpl in Hn; lia]. }
  destruct s as [|c s]; [reflexivity|]. simpl in Hn.
  destruct (ascii_dec c "y") as [->|Ny].
  { destruct (prefix "yyyy" (String "y" s)) eqn:E.
    - unfold formatTokens. cbn [formatTokens_from]. rewrite E.
      rewrite formatTokens_from_drop.
      pose proof (prefix_drop _ _ E) as Hs.
      pose proof (prefix_drop_length _ _ E) as Hd.
      change (drop (String.length "yyyy") (String "y" s)) with (drop 3 s) in Hs, Hd.
      cbn [String.length] in Hd.
      rewrite <- (IH (drop 3 s)) by lia.
      rewrite Hs. generalize (drop 3 s) as r. intros r.
      unfold replaceTokens.
      rewrite replaceAll_match_append.
      rewrite !(replaceAll_pass "M") by assumption.
      rewrite !(replaceAll_pass "d") by assumption.
      reflexivity.
    - unfold formatTokens. cbn [formatTokens_from]. rewrite E.
      rewrite !(prefix_cons_ne "M" "y") by discriminate.
      rewrite !(prefix_cons_ne "d" "y") by discriminate.
      fold (formatTokens y mm m dd d s).
      rewrite <- (IH s) by lia.
      unfold replaceTokens.
      rewrite (replaceAll_nomatch "yyyy") by exact E.
      rewrite !replaceAll_skip by discriminate. reflexivity. }
  destruct (ascii_dec c "M") as [->|NM].
  { destruct (prefix "MM" (String "M" s)) eqn:E.
    - unfold formatTokens. cbn [formatTokens_from].
      rewrite (prefix_cons_ne "y" "M") by discriminate. rewrite E.
      rewrite formatTokens_from_drop.
      pose proof (prefix_drop _ _ E) as Hs.
      pose proof (prefix_drop_length _ _ E) as Hd.
      change (drop (String.length "MM") (String "M" s)) with (drop 1 s) in Hs, Hd.
      cbn [String.length] in Hd.
      rewrite <- (IH (drop 1 s)) by lia.
      rewrite Hs. generalize (drop 1 s) as r. intros r.
      unfold replaceTokens.
      change ("MM" ++ r) with (String "M" (String "M" r)).
      rewrite !(replaceAll_skip "y") by discriminate.
      change (String "M" (String "M" (replaceAll "yyyy" y r)))
        with ("MM" ++ replaceAll "yyyy" y r).
      rewrite replaceAll_match_append.
      rewrite (replaceAll_pass "M") by assumption.
      rewrite !(replaceAll_pass "d") by assumption.
      reflexivity.
    - unfold formatTokens. cbn [formatTokens_from].
      rewrite (prefix_cons_ne "y" "M") by discriminate. rewrite E.
      rewrite prefix_cons_eq.
      replace (prefix "" s) with true by (destruct s; reflexivity).
      fold (formatTokens y mm m dd d s).
      rewrite <- (IH s) by lia.
      rewrite prefix_cons_eq in E. apply prefix_single_false in E.
      unfold replaceTokens.
      rewrite (replaceAll_skip "y") by discriminate.
      rewrite (replaceAll_nomatch "MM").
      2:{ rewrite prefix_cons_eq. apply head_ne_prefix.
          apply head_ne_replaceAll; assumption. }
      change (String "M" (replaceAll "MM" mm (replaceAll "yyyy" y s)))
        with ("M" ++ replaceAll "MM" mm (replaceAll "yyyy" y s)).
      rewrite replaceAll_match_append.
      rewrite !(replaceAll_pass "d") by assumption.
      reflexivity. }
  destruct (ascii_dec c "d") as [->|Nd].
  { destruct (prefix "dd" (String "d" s)) eqn:E.
    - unfold formatTokens. cbn [formatTokens_from].
      rewrite (prefix_cons_ne "y" "d") by discriminate.
      rewrite !(prefix_cons_ne "M" "d") by discriminate. rewrite E.
      rewrite formatTokens_from_drop.
      pose proof (prefix_drop _ _ E) as Hs.
      pose proof (prefix_drop_length _ _ E) as Hd.
      change (drop (String.length "dd") (String "d" s)) with (drop 1 s) in Hs, Hd.
      cbn [String.length] in Hd.
      rewrite <- (IH (drop 1 s)) by lia.
      rewrite Hs. generalize (drop 1 s) as r. intros r.
      unfold replaceTokens.
      change ("dd" ++ r) with (String "d" (String "d" r)).
      rewrite !(replaceAll_skip "y") by discriminate.
      rewrite !(replaceAll_skip "M") by discriminate.
      change (String "d" (String "d" (replaceAll "M" m (replaceAll "MM" mm (replaceAll "yyyy" y r)))))
        with ("dd" ++ replaceAll "M" m (replaceAll "MM" mm (replaceAll "yyyy" y r))).
      rewrite replaceAll_match_append.
      rewrite (replaceAll_pass "d") by assumption.
      reflexivity.
    - unfold formatTokens. cbn [formatTokens_from].
      rewrite (prefix_cons_ne "y" "d") by discriminate.
      rewrite !(prefix_cons_ne "M" "d") by discriminate. rewrite E.
      rewrite prefix_cons_eq.
      replace (prefix "" s) with true by (destruct s; reflexivity).
      fold (formatTokens y mm m dd d s).
      rewrite <- (IH s) by lia.
      rewrite prefix_cons_eq in E. apply prefix_single_false in E.
      unfold replaceTokens.
      rewrite (replaceAll_skip "y") by discriminate.
      rewrite !(replaceAll_skip "M") by discriminate.
      rewrite (replaceAll_nomatch "dd").
      2:{ rewrite prefix_cons_eq. apply head_ne_prefix.
          repeat (apply head_ne_replaceAll; try assumption). }
      change (String "d" (replaceAll "dd" dd (replaceAll "M" m (replaceAll "MM" mm (replaceAll "yyyy" y s)))))
        with ("d" ++ replaceAll "dd" dd (replaceAll "M" m (replaceAll "MM" mm (replaceAll "yyyy" y s)))).
      rewrite replaceAll_match_append.
      reflexivity. }
  unfold formatTokens. cbn [formatTokens_from].
  rewrite (prefix_cons_ne "y") by assumption.
  rewrite !(prefix_cons_ne "M") by assumption.
  rewrite !(prefix_cons_ne "d") by assumption.
  fold (formatTokens y mm m dd d s).
  rewrite <- (IH s) by lia.
  apply replaceTokens_char; assumption.
Qed.

End Tokens.

(** * Facts about the token formatter *)

Lemma string_of_uint_avoids x u :
  is_digit x = false -> avoids x (NilEmpty.string_of_uint u) = true.
Proof.
  intros Hx.
  assert (Hd : forall c, is_digit c = true -> (c =? x)%char = false).
  { intros c Hc. destruct (Ascii.eqb_spec c x) as [->|]; [congruence|reflexivity]. }
  induction u; cbn [NilEmpty.string_of_uint avoids]; rewrite ?Hd by reflexivity; auto.
Qed.

Lemma toString_avoids x v :
  is_digit x = false -> x <> "-"%char -> x <> "N"%char -> x <> "a"%char ->
  avoids x (toString v) = true.
Proof.
  intros Hx Hm HN Ha.
  assert (E : forall c, x <> c -> (c =? x)%char = false).
  { intros c Hc. destruct (Ascii.eqb_spec c x) as [->|]; [contradiction|reflexivity]. }
  assert (U : forall u, avoids x (NilZero.string_of_uint u) = true).
  { intros u. destruct u; try (apply string_of_uint_avoids; assumption).
    cbn [NilZero.string_of_uint avoids]. rewrite E; [reflexivity|].
    intros ->. discriminate. }
  destruct v as [z|]; cbn [toString].
  - destruct (Z.to_int z) as [u|u]; cbn [NilZero.string_of_int avoids].
    + apply U.
    + rewrite (E "-"%char) by assumption. apply U.
  - cbn [avoids]. rewrite (E "N"%char), (E "a"%char) by assumption. reflexivity.
Qed.

Lemma toString_nonempty v : toString v <> "".
Proof.
  destruct v as [z|]; simpl; [|discriminate].
  destruct (Z.to_int z) as [u|u]; simpl; [|discriminate].
  destruct u; discriminate.
Qed.

Lemma toString_text v : token_text (toString v).
Proof.
  split; [apply toString_nonempty|].
  repeat split; apply toString_avoids; try reflexivity; discriminate.
Qed.

Lemma pad2_text v : token_text (pad2 v).
Proof.
  unfold pad2. destruct (int_lt v (Some 10)); [|apply toString_text].
  destruct (toString_text v) as (_ & Hy & HM & Hd).
  repeat split; simpl; try assumption. discriminate.
Qed.

(** The token formatter reads its format string once, whatever the date. *)
Lemma formatDate_formatTokens date formatStr :
  formatDate date formatStr =
    formatTokens (toString (getFullYear date))
                 (pad2 (int_add (getMonth date) (Some 1)))
                 (toString (int_add (getMonth date) (Some 1)))
                 (pad2 (getDate date))
                 (toString (getDate date))
                 formatStr.
Proof.
  apply (replaceTokens_formatTokens _ _ _ _ _
           (toString_text _) (pad2_text _) (toString_text _)
           (pad2_text _) (toString_text _) (String.length formatStr)).
  apply Nat.le_refl.
Qed.

(** C6 (as amended).  The token formatter reads the format string once:
    every [yyyy] gives the year in decimal, written without padding, every
    [MM] the month on two digits, every other [M] the month as it is, every
    [dd] the day on two digits and every other [d] the day as it is; for
    8 April 2025 the formats [yyyy-MM-dd] and [yyyy-M-d] give [2025-04-08]
    and [2025-4-8]. *)
Theorem formatDate_tokens date :
  (forall formatStr,
     formatDate date formatStr =
       formatTokens (toString (getFullYear date))
                    (pad2 (int_add (getMonth date) (Some 1)))
                    (toString (int_add (getMonth date) (Some 1)))
                    (pad2 (getDate date))
                    (toString (getDate date))
                    formatStr) /\
  (getFullYear date = Some 2025 -> getMonth date = Some 3 -> getDate date = Some 8 ->
     formatDate date "yyyy-MM-dd" = "2025-04-08" /\
     formatDate date "yyyy-M-d" = "2025-4-8").
Proof.
  split; [apply formatDate_formatTokens|].
  intros Hy Hm Hd. rewrite !formatDate_formatTokens, Hy, Hm, Hd. split; reflexivity.
Qed.

(** ** Safe formatting *)

Lemma Day_zero_components t :
  Day t = 0 -> YearFromTime t = 1970 /\ MonthFromTime t = 0 /\ DateFromTime t = 1.
Proof.
  intros H.
  assert (Hy : YearFromTime t = 1970) by (unfold YearFromTime; rewrite H; reflexivity).
  assert (Hw : DayWithinYear t = 0) by (unfold DayWithinYear; rewrite H, Hy; reflexivity).
  assert (Hl : InLeapYear t = 0) by (unfold InLeapYear; rewrite Hy; reflexivity).
  assert (Hm : MonthFromTime t = 0) by (unfold MonthFromTime; rewrite Hw, Hl; reflexivity).
  repeat split; try assumption.
  unfold DateFromTime. rewrite Hw, Hl, Hm. reflexivity.
Qed.

(** C9.  A string of one space is truthy and reads as the number 0, so it
    is formatted as the epoch instead of giving ["-"]; where local time is
    not behind UTC the epoch falls on 1970-01-01. *)
Theorem formatSafeDate_whitespace :
  truthy (Str " ") = true /\
  StringToNumber " " = number_of_Z 0 /\
  (forall formatString,
     formatSafeDate (Str " ") formatString = formatDate (Some 0) formatString) /\
  formatSafeDate (Str " ") "yyyy-MM-dd" <> "-" /\
  (0 <= LocalTZA < msPerDay ->
     formatSafeDate (Str " ") "yyyy-MM-dd" = "1970-01-01").
Proof.
  assert (G : forall formatString,
     formatSafeDate (Str " ") formatString = formatDate (Some 0) formatString)
    by (intros; reflexivity).
  repeat split; try reflexivity; try exact G.
  - rewrite G, formatDate_formatTokens.
    change (formatTokens ?y ?mm ?m ?dd ?d "yyyy-MM-dd")
      with (y ++ String "-" (mm ++ String "-" (dd ++ ""))).
    pose proof (toString_nonempty (getFullYear (Some 0))) as Hne.
    destruct (toString (getFullYear (Some 0))) as [|c r]; [contradiction|].
    cbn [append]. intros E. injection E as _ E.
    destruct r; discriminate E.
  - intros Htz. rewrite G.
    destruct (Day_zero_components (LocalTime 0)) as (Hy & Hm & Hd).
    { unfold LocalTime, Day. apply Z.div_small. lia. }
    unfold formatDate. int_simpl. rewrite Hy, Hm, Hd. reflexivity.
Qed.

(** * Further facts about the date module *)

(** ** Moving a date by days and hours *)

Lemma setDate_minus t k :
  setDate (Some t) (int_sub (getDate (Some t)) (Some k)) = TimeClip (t - k * msPerDay).
Proof.
  pose proof (setDate_shift t (- k)) as H. int_simpl. cbn [int_add getDate option_map] in H.
  replace (DateFromTime (LocalTime t) - k) with (DateFromTime (LocalTime t) + - k) by lia.
  rewrite H. f_equal. lia.
Qed.

(** Taking days off a date moves it back by exactly that many days,
    whatever the time zone; outside the representable range the result is
    an Invalid Date. *)
Theorem subtractDays_shift t days :
  subtractDays (Some t) days = TimeClip (t - days * msPerDay).
Proof. unfold subtractDays, newDate_copy. apply setDate_minus. Qed.

Lemma setHours_shift t hours :
  setHours (Some t) (int_add (getHours (Some t)) (Some hours))
    = TimeClip (t + hours * msPerHour).
Proof.
  unfold setHours, getHours. int_simpl. f_equal.
  unfold UTC, MakeDate, MakeTime, HourFromTime, MinFromTime, SecFromTime, msFromTime, Day.
  set (tl := LocalTime t). replace t with (tl - LocalTZA) by (unfold tl, LocalTime; lia).
  unfold msPerDay, msPerHour, msPerMinute, msPerSecond.
  Z.div_mod_to_equations. lia.
Qed.

(** Adding hours to a date moves it forward by exactly that many hours,
    whatever the time zone. *)
Theorem addHours_shift t hours :
  addHours (Some t) hours = TimeClip (t + hours * msPerHour).
Proof. unfold addHours, newDate_copy. apply setHours_shift. Qed.

(** ** The days of a week *)

(** For a date at least a week inside the range of representable times,
    [getWeekDays] gives seven dates one day apart, at the time of day of
    the given date; the first falls on a Sunday (on a Monday when the week
    is not to start on Sunday) and the given date is one of the seven. *)
Theorem getWeekDays_week t (startFromSunday : bool) :
  Z.abs t + 7 * msPerDay <= maxTime ->
  exists offset,
    0 <= offset <= 6 /\
    getWeekDays (Some t) startFromSunday
      = map (fun i => Some (t + (i - offset) * msPerDay)) [0; 1; 2; 3; 4; 5; 6] /\
    getDay (Some (t - offset * msPerDay)) = Some (if startFromSunday then 0 else 1).
Proof.
  intros Hr.
  pose proof (WeekDay_bounds (LocalTime t)) as Hc.
  set (c := WeekDay (LocalTime t)) in *.
  set (s := if startFromSunday then 0 else 1).
  set (off := if c - s <? 0 then c - s + 7 else c - s).
  assert (Hs : 0 <= s <= 1) by (subst s; destruct startFromSunday; lia).
  assert (Hoff : 0 <= off <= 6) by (subst off; destruct (Z.ltb_spec (c - s) 0); lia).
  exists off. split; [exact Hoff|].
  assert (Hcur : setDate (Some t) (int_sub (getDate (Some t)) (Some off))
                 = Some (t - off * msPerDay)).
  { rewrite setDate_minus. apply TimeClip_in_range. unfold msPerDay, maxTime in *. lia. }
  split.
  - unfold getWeekDays, newDate_copy. cbv zeta.
    assert (E : (if int_lt (int_sub (getDay (Some t)) (if startFromSunday then Some 0 else Some 1)) (Some 0)
                 then int_add (int_sub (getDay (Some t)) (if startFromSunday then Some 0 else Some 1)) (Some 7)
                 else int_sub (getDay (Some t)) (if startFromSunday then Some 0 else Some 1))
                = Some off).
    { int_simpl. fold c. subst off s. destruct startFromSunday; int_simpl;
        destruct (_ <? 0); reflexivity. }
    rewrite E, Hcur.
    apply map_ext_in. intros i Hi.
    rewrite setDate_shift.
    replace (t - off * msPerDay + i * msPerDay) with (t + (i - off) * msPerDay) by lia.
    apply TimeClip_in_range.
    assert (0 <= i <= 6) by (simpl in Hi; lia).
    unfold msPerDay, maxTime in *. lia.
  - replace (t - off * msPerDay) with (t + (- off) * msPerDay) by lia.
    rewrite getDay_shift. fold c. f_equal.
    subst off s.
    destruct startFromSunday;
      [destruct (Z.ltb_spec (c - 0) 0)|destruct (Z.ltb_spec (c - 1) 0)];
      Z.div_mod_to_equations; lia.
Qed.

(** ** Week of the month, within one month *)

(** Within one month the week number does not go down as the day of the
    month goes up. *)
Theorem getWeekOfMonth_monotone a b :
  getFullYear (Some a) = getFullYear (Some b) ->
  getMonth (Some a) = getMonth (Some b) ->
  DateFromTime (LocalTime a) <= DateFromTime (LocalTime b) ->
  exists wa wb,
    getWeekOfMonth (Some a) = Some wa /\
    getWeekOfMonth (Some b) = Some wb /\
    wa <= wb.
Proof.
  intros Hy Hm Hd.
  unfold getWeekOfMonth. cbv zeta. rewrite Hy, Hm.
  destruct (getDay (newDate_ymd (getFullYear (Some b)) (getMonth (Some b)) (Some 1)))
    as [w|]; int_simpl.
  - destruct (Z.ltb_spec (7 - w) (DateFromTime (LocalTime a)));
      destruct (Z.ltb_spec (7 - w) (DateFromTime (LocalTime b)));
      eexists; eexists; (split; [reflexivity|split; [reflexivity|]]);
      try lia; Z.div_mod_to_equations; lia.
  - exists 1, 1. repeat split. lia.
Qed.

(** The Korean label of a week is made of the year, the month and a week
    number from 1 to 6; for an Invalid Date it reads NaN for the year and
    the month and 1 for the week. *)
Theorem getKoreanWeekOfMonth_label (date : Date) :
  (exists w,
     1 <= w <= 6 /\
     getKoreanWeekOfMonth date
       = toString (getFullYear date) ++ "년 "
         ++ toString (int_add (getMonth date) (Some 1)) ++ "월 "
         ++ toString (Some w) ++ "주차") /\
  getKoreanWeekOfMonth None = "NaN년 NaN월 1주차".
Proof.
  split; [|reflexivity].
  destruct (getWeekOfMonth_bounds date) as (w & Hw & Hb).
  exists w. split; [exact Hb|].
  unfold getKoreanWeekOfMonth. cbv zeta. rewrite Hw. reflexivity.
Qed.

(** ** Weekday names *)

(** A weekday name taken from any of the six tables is converted to the
    entry of the target table for the same day, and converting that entry
    back gives the name again. *)
Theorem convertDayFormat_tables (source target : DayFormat) i :
  0 <= i <= 6 ->
  exists name name',
    array_get (DAY_MAPPINGS_at source) (Some i) = Some name /\
    array_get (DAY_MAPPINGS_at target) (Some i) = Some name' /\
    convertDayFormat name target = Some name' /\
    convertDayFormat name' source = Some name.
Proof.
  intros Hi.
  assert (Hc : i = 0 \/ i = 1 \/ i = 2 \/ i = 3 \/ i = 4 \/ i = 5 \/ i = 6) by lia.
  destruct Hc as [-> | [-> | [-> | [-> | [-> | [-> | ->]]]]]];
    destruct source, target; eexists; eexists; repeat split.
Qed.

(** The name [getDayOfWeek] gives for a valid date, in any format, is
    read back by [getDayIndex] as the weekday of that date. *)
Theorem getDayOfWeek_getDayIndex t (format : DayFormat) :
  exists name,
    getDayOfWeek (Some t) format = Some name /\
    getDayIndex name = getDay (Some t).
Proof.
  unfold getDayOfWeek. int_simpl.
  pose proof (WeekDay_bounds (LocalTime t)) as Hb.
  set (i := WeekDay (LocalTime t)) in *.
  assert (Hc : i = 0 \/ i = 1 \/ i = 2 \/ i = 3 \/ i = 4 \/ i = 5 \/ i = 6) by lia.
  destruct Hc as [-> | [-> | [-> | [-> | [-> | [-> | ->]]]]]];
    destruct format; eexists; split; reflexivity.
Qed.

(** Two valid dates have the same weekday exactly when their local days
    are a whole number of weeks apart; an Invalid Date has the weekday of
    no date, not even its own. *)
Theorem isSameDayOfWeek_weeks_apart (date1 date2 : Date) :
  isSameDayOfWeek date1 date2 = true <->
  exists a b, date1 = Some a /\ date2 = Some b /\
              (Day (LocalTime a) - Day (LocalTime b)) mod 7 = 0.
Proof.
  unfold isSameDayOfWeek. destruct date1 as [a|], date2 as [b|]; int_simpl.
  - unfold WeekDay. rewrite Z.eqb_eq. split.
    + intros H. exists a, b. repeat split. Z.div_mod_to_equations. lia.
    + intros (a' & b' & Ea & Eb & H). injection Ea as <-. injection Eb as <-.
      Z.div_mod_to_equations. lia.
  - split; [discriminate|]. intros (a' & b' & _ & E & _). discriminate.
  - split; [discriminate|]. intros (a' & b' & E & _). discriminate.
  - split; [discriminate|]. intros (a' & b' & E & _). discriminate.
Qed.

(** A valid date falls on a weekend exactly when its weekday is Sunday or
    Saturday; an Invalid Date is not on a weekend and so counts as a
    weekday. *)
Theorem isWeekend_isWeekday (date : Date) :
  (isWeekend date = true <->
     exists t, date = Some t /\ (WeekDay (LocalTime t) = 0 \/ WeekDay (LocalTime t) = 6)) /\
  (isWeekday date = true <->
     date = None \/ exists t, date = Some t /\ 1 <= WeekDay (LocalTime t) <= 5).
Proof.
  unfold isWeekday, isWeekend. destruct date as [t|]; int_simpl.
  - pose proof (WeekDay_bounds (LocalTime t)) as Hb.
    rewrite negb_true_iff, orb_true_iff, orb_false_iff, !Z.eqb_eq, !Z.eqb_neq.
    split; split.
    + intros H. exists t. auto.
    + intros (t' & E & H). injection E as <-. exact H.
    + intros H. right. exists t. split; [reflexivity|lia].
    + intros [E|(t' & E & H)]; [discriminate|]. injection E as <-. lia.
  - split; split; try discriminate.
    + intros (t' & E & _). discriminate.
    + intros _. left. reflexivity.
    + reflexivity.
Qed.

(** ** The range rules of the date picker, the other cases *)

Lemma isSameDay_false_iff a b :
  isSameDay (Some a) (Some b) = false <-> calendarDay a <> calendarDay b.
Proof.
  rewrite <- isSameDay_calendarDay. destruct (isSameDay (Some a) (Some b)); split;
    congruence.
Qed.

(** When the range ends today and does not start today, a date is
    selectable exactly when it falls on today's calendar day. *)
Theorem isDateDisabled_end_today date s e a b n :
  (if negb (s =? "")%string then newDate_string s else Some n) = Some a ->
  (if negb (e =? "")%string then newDate_string e else Some n) = Some b ->
  calendarDay a <> calendarDay b ->
  calendarDay b = calendarDay n ->
  isDateDisabled date s e (Some n) = false <->
  exists t, date = Some t /\ calendarDay t = calendarDay n.
Proof.
  intros Hs He Hab Hbn. unfold isDateDisabled. cbv zeta. rewrite Hs, He.
  apply isSameDay_false_iff in Hab. rewrite Hab.
  apply isSameDay_calendarDay in Hbn. rewrite Hbn.
  rewrite negb_false_iff.
  destruct date as [t|].
  - rewrite isSameDay_calendarDay. split.
    + intros H. exists t. auto.
    + intros (t' & E & H). injection E as <-. exact H.
  - split; [discriminate|]. intros (t' & E & _). discriminate.
Qed.

(** In the remaining case, a range between two different days that does
    not end today, a valid date is selectable exactly when its instant
    lies between the start and the end of the range and not more than one
    day before today; an Invalid Date is not reported as disabled. *)
Theorem isDateDisabled_window s e a b n :
  (if negb (s =? "")%string then newDate_string s else Some n) = Some a ->
  (if negb (e =? "")%string then newDate_string e else Some n) = Some b ->
  calendarDay a <> calendarDay b ->
  calendarDay b <> calendarDay n ->
  Z.abs n + msPerDay <= maxTime ->
  (forall t, isDateDisabled (Some t) s e (Some n) = false <->
             a <= t <= b /\ n - msPerDay <= t) /\
  isDateDisabled None s e (Some n) = false.
Proof.
  intros Hs He Hab Hbn Hr. unfold isDateDisabled. cbv zeta. rewrite Hs, He.
  apply isSameDay_false_iff in Hab. rewrite Hab.
  apply isSameDay_false_iff in Hbn. rewrite Hbn.
  unfold subtractDays, newDate_copy. rewrite setDate_minus.
  rewrite TimeClip_in_range by (unfold msPerDay, maxTime in *; lia).
  split; [|reflexivity].
  intros t. unfold date_lt, date_gt, int_gt, int_lt, getTime.
  rewrite !orb_false_iff, !Z.ltb_ge. unfold msPerDay. lia.
Qed.

(** ** What the token formatter leaves and what it cannot leave *)

Lemma avoids_append x u s : avoids x (u ++ s) = avoids x u && avoids x s.
Proof.
  induction u as [|c u IH]; [reflexivity|].
  simpl. rewrite IH. apply andb_assoc.
Qed.

Lemma append_nil_r (s : string) : s ++ "" = s.
Proof. induction s as [|c s IH]; [reflexivity|]. simpl. f_equal. exact IH. Qed.

Lemma prefix_single_char x c s :
  prefix (String x "") (String c s) = false -> (c =? x)%char = false.
Proof.
  intros H. apply prefix_single_false in H. simpl in H.
  destruct (Ascii.eqb_spec c x); [contradiction|reflexivity].
Qed.

Lemma formatTokens_from_avoids x y mm m dd d s :
  x = "M"%char \/ x = "d"%char ->
  avoids x y = true -> avoids x mm = true -> avoids x m = true ->
  avoids x dd = true -> avoids x d = true ->
  forall k, avoids x (formatTokens_from y mm m dd d k s) = true.
Proof.
  intros Hx Hy Hmm Hm Hdd Hd.
  induction s as [|c s IH]; intros k; [destruct k; reflexivity|].
  destruct k as [|k]; [|apply IH].
  cbn [formatTokens_from].
  destruct (prefix "yyyy" (String c s)); [rewrite avoids_append, Hy; apply IH|].
  destruct (prefix "MM" (String c s)); [rewrite avoids_append, Hmm; apply IH|].
  destruct (prefix "M" (String c s)) eqn:EM; [rewrite avoids_append, Hm; apply IH|].
  destruct (prefix "dd" (String c s)); [rewrite avoids_append, Hdd; apply IH|].
  destruct (prefix "d" (String c s)) eqn:Ed; [rewrite avoids_append, Hd; apply IH|].
  cbn [avoids]. rewrite IH, andb_true_r.
  apply prefix_single_char in EM. apply prefix_single_char in Ed.
  destruct Hx as [-> | ->]; [rewrite EM|rewrite Ed]; reflexivity.
Qed.

(** No [M] and no [d] survives the formatting, whatever the format string
    and the date: these letters cannot be written as literal text. *)
Theorem formatDate_no_token_letter date formatStr :
  avoids "M" (formatDate date formatStr) = true /\
  avoids "d" (formatDate date formatStr) = true.
Proof.
  rewrite formatDate_formatTokens. unfold formatTokens.
  destruct (toString_text (getFullYear date)) as (_ & _ & y_M & y_d).
  destruct (pad2_text (int_add (getMonth date) (Some 1))) as (_ & _ & mm_M & mm_d).
  destruct (toString_text (int_add (getMonth date) (Some 1))) as (_ & _ & m_M & m_d).
  destruct (pad2_text (getDate date)) as (_ & _ & dd_M & dd_d).
  destruct (toString_text (getDate date)) as (_ & _ & d_M & d_d).
  split; apply formatTokens_from_avoids; auto.
Qed.

(** A format string without [y], [M] and [d] comes back unchanged. *)
Theorem formatDate_plain_text date formatStr :
  avoids "y" formatStr = true ->
  avoids "M" formatStr = true ->
  avoids "d" formatStr = true ->
  formatDate date formatStr = formatStr.
Proof.
  intros Hy HM Hd. unfold formatDate.
  rewrite <- (append_nil_r formatStr).
  rewrite (replaceAll_pass "y") by assumption.
  rewrite !(replaceAll_pass "M") by assumption.
  rewrite !(replaceAll_pass "d") by assumption.
  reflexivity.
Qed.

(** On the default format the formatter of epoch milliseconds agrees with
    the token formatter; it formats an invalid time too, as
    [NaN-NaN-NaN]. *)
Theorem formatEpochMilliseconds_default epochMilliseconds :
  formatEpochMilliseconds epochMilliseconds "yyyy-MM-dd"
    = formatDate (newDate_number epochMilliseconds) "yyyy-MM-dd" /\
  (newDate_number epochMilliseconds = None ->
   formatEpochMilliseconds epochMilliseconds "yyyy-MM-dd" = "NaN-NaN-NaN").
Proof.
  assert (G : forall date,
    replaceAll "dd" (pad2 (getDate date))
      (replaceAll "MM" (pad2 (int_add (getMonth date) (Some 1)))
        (replaceAll "yyyy" (toString (getFullYear date)) "yyyy-MM-dd"))
    = formatDate date "yyyy-MM-dd").
  { intros date. rewrite formatDate_formatTokens.
    destruct (toString_text (getFullYear date)) as (_ & _ & y_M & y_d).
    destruct (pad2_text (int_add (getMonth date) (Some 1))) as (_ & _ & _ & mm_d).
    set (y := toString (getFullYear date)) in *.
    set (mm := pad2 (int_add (getMonth date) (Some 1))) in *.
    set (dd := pad2 (getDate date)).
    change (replaceAll "yyyy" y "yyyy-MM-dd") with (y ++ "-MM-dd").
    rewrite (replaceAll_pass "M") by assumption.
    change (replaceAll "MM" mm "-MM-dd") with (String "-" (mm ++ "-dd")).
    rewrite (replaceAll_pass "d") by assumption.
    rewrite (replaceAll_skip "d") by discriminate.
    rewrite (replaceAll_pass "d") by assumption.
    reflexivity. }
  split.
  - unfold formatEpochMilliseconds. apply G.
  - intros H. unfold formatEpochMilliseconds. rewrite H. reflexivity.
Qed.

(** ** Epoch values *)

(** [formatSafeDate] on a whole number: zero gives ["-"]; a number above
    1,000,000,000,000 is a time in milliseconds; any other number, a
    negative one too, is a time in seconds; what falls outside the range of
    representable times gives ["-"]. *)
Theorem formatSafeDate_integer n formatString :
  (n = 0 -> formatSafeDate (Num (number_of_Z n)) formatString = "-") /\
  (1000000000000 < n <= maxTime ->
     formatSafeDate (Num (number_of_Z n)) formatString = formatDate (Some n) formatString) /\
  (n <= 1000000000000 -> n <> 0 -> Z.abs (n * 1000) <= maxTime ->
     formatSafeDate (Num (number_of_Z n)) formatString
       = formatDate (Some (n * 1000)) formatString) /\
  (maxTime < n \/ n * 1000 < - maxTime ->
     formatSafeDate (Num (number_of_Z n)) formatString = "-").
Proof.
  assert (Hgt : num_gt (number_of_Z n) (number_of_Z 1000000000000)
                = (1000000000000 <? n)).
  { unfold num_gt, number_of_Z, Qle_bool, inject_Z. cbn [Qnum Qden].
    rewrite !Z.mul_1_r. rewrite Z.ltb_antisym. reflexivity. }
  assert (Htr : n <> 0 -> truthy (Num (number_of_Z n)) = true).
  { intros H. cbn. apply negb_true_iff. apply Z.eqb_neq. exact H. }
  unfold formatSafeDate.
  cbn [typeof_number Number orb]. rewrite Hgt.
  unfold fromUnixTime, newDate_number.
  rewrite TimeClipNumber_of_Z, TimeClipNumber_seconds.
  repeat split.
  - intros ->. reflexivity.
  - intros H. rewrite Htr by lia. cbn [negb].
    destruct (Z.ltb_spec 1000000000000 n); [|lia].
    rewrite TimeClip_in_range by lia. reflexivity.
  - intros H1 H2 H3. rewrite Htr by lia. cbn [negb].
    destruct (Z.ltb_spec 1000000000000 n); [lia|].
    rewrite TimeClip_in_range by lia. reflexivity.
  - intros H. destruct (truthy (Num (number_of_Z n))); [|reflexivity]. cbn [negb].
    destruct (Z.ltb_spec 1000000000000 n).
    + rewrite TimeClip_out_of_range; [reflexivity|]. unfold maxTime in *. lia.
    + rewrite TimeClip_out_of_range; [reflexivity|]. unfold maxTime in *. lia.
Qed.

(** The epoch second of a valid date is the second its instant falls in,
    before 1970 as well, and going back to a date drops the milliseconds;
    an Invalid Date has the epoch second NaN. *)
Theorem dateToUnixEpoch_floor t :
  Z.abs t <= maxTime ->
  exists s,
    dateToUnixEpoch (Some t) = Some s /\
    s * 1000 <= t < s * 1000 + 1000 /\
    unixEpochToDate (number_of_int (dateToUnixEpoch (Some t))) = Some (s * 1000) /\
    dateToUnixEpoch None = None.
Proof.
  intros Hr. exists (t / 1000).
  unfold dateToUnixEpoch, getTime, floor_div, number_of_int, unixEpochToDate, newDate_number.
  rewrite TimeClipNumber_seconds.
  assert (Hb : (t / 1000) * 1000 <= t < (t / 1000) * 1000 + 1000)
    by (Z.div_mod_to_equations; lia).
  repeat split; try lia.
  apply TimeClip_in_range. unfold maxTime in *. Z.div_mod_to_equations. lia.
Qed.

(** ** Today in Korean standard time *)

Lemma before_char_append x u r :
  avoids x u = true -> before_char x (u ++ String x r) = u.
Proof.
  induction u as [|c u IH]; intros H; cbn [append before_char].
  - rewrite Ascii.eqb_refl. reflexivity.
  - cbn [avoids] in H. apply andb_true_iff in H as [Hc Hu].
    apply negb_true_iff in Hc. rewrite Hc. f_equal. apply IH. exact Hu.
Qed.

Lemma zeros_avoids x n : x <> "0"%char -> avoids x (zeros n) = true.
Proof.
  intros H. induction n as [|n IH]; [reflexivity|].
  cbn [zeros avoids]. rewrite IH, andb_true_r.
  destruct (Ascii.eqb_spec "0"%char x) as [E|]; [subst; contradiction|reflexivity].
Qed.

Lemma padStart0_avoids_T n v : avoids "T" (padStart0 n (toString v)) = true.
Proof.
  unfold padStart0. rewrite avoids_append, zeros_avoids by discriminate.
  apply toString_avoids; [reflexivity|discriminate..].
Qed.

Lemma isoDatePart_avoids_T t : avoids "T" (isoDatePart t) = true.
Proof.
  unfold isoDatePart, isoYear.
  assert (Hy : avoids "T"
            (if (0 <=? YearFromTime t) && (YearFromTime t <=? 9999)
             then padStart0 4 (toString (Some (YearFromTime t)))
             else (if YearFromTime t <? 0 then "-" else "+")
                  ++ padStart0 6 (toString (Some (Z.abs (YearFromTime t))))) = true).
  { destruct ((0 <=? YearFromTime t) && (YearFromTime t <=? 9999));
      [apply padStart0_avoids_T|].
    rewrite avoids_append, padStart0_avoids_T.
    destruct (YearFromTime t <? 0); reflexivity. }
  rewrite !avoids_append, Hy, !padStart0_avoids_T. reflexivity.
Qed.

(** On a host whose offset from UTC is fixed, whatever that offset,
    [getKstDateString] gives the date part, in the form of [toISOString],
    of the instant nine hours after the present one read in UTC: the
    calendar date of the present in Korea.  (The nine hours are added on
    the local clock, by [setHours]; a host whose offset changes within them
    is not covered.) *)
Theorem getKstDateString_utc9 t :
  Z.abs t + 9 * msPerHour <= maxTime ->
  getKstDateString (Some t) = Some (isoDatePart (t + 9 * msPerHour)).
Proof.
  intros Hr. unfold getKstDateString. cbv zeta.
  unfold addHours, newDate_copy. rewrite setHours_shift.
  rewrite TimeClip_in_range by (unfold msPerHour, maxTime in *; lia).
  cbn [toISOString option_map]. f_equal.
  apply (before_char_append "T" (isoDatePart (t + 9 * msPerHour))
           (isoTimePart (t + 9 * msPerHour))).
  apply isoDatePart_avoids_T.
Qed.

(** ** Legal date strings *)

Lemma all_from_spec n : forall z p,
  all_from n z p = true -> forall x, z <= x < z + Z.of_nat n -> p x = true.
Proof.
  induction n as [|k IH]; intros z p H x Hx; [lia|].
  cbn [all_from] in H. apply andb_true_iff in H as [Hk Hr].
  destruct (Z.eq_dec x z) as [->|Hne]; [exact Hk|].
  apply (IH (z + 1) p Hr). lia.
Qed.

Lemma digit_value_bounds c : is_digit c = true -> 0 <= digit_value c <= 9.
Proof.
  unfold is_digit, digit_value. cbv zeta.
  rewrite andb_true_iff, !N.leb_le. lia.
Qed.

Lemma digit_char_value c : is_digit c = true -> digit_char (digit_value c) = c.
Proof.
  intros H. pose proof (digit_value_bounds c H) as Hb.
  unfold digit_char, digit_value in *.
  replace (Z.to_N (Z.of_N (N_of_ascii c) - 48 + 48)) with (N_of_ascii c) by lia.
  apply ascii_N_embedding.
Qed.

Lemma digit_eqb_false c x :
  is_digit c = true -> is_digit x = false -> (c =? x)%char = false.
Proof.
  intros Hc Hx. destruct (Ascii.eqb_spec c x) as [->|]; [congruence|reflexivity].
Qed.

Lemma white_prefix_digit ws c s :
  is_digit c = true ->
  Forall (fun w => match w with
                   | String a _ => is_digit a = false
                   | EmptyString => False
                   end) ws ->
  white_prefix ws (String c s) = 0%nat.
Proof.
  intros Hc H. induction H as [|w ws Hw _ IH]; [reflexivity|].
  destruct w as [|a w]; [contradiction|].
  cbn [white_prefix]. rewrite prefix_cons_ne; [exact IH|].
  intros ->. congruence.
Qed.

Lemma white_start_not_digit :
  Forall (fun w => match w with
                   | String a _ => is_digit a = false
                   | EmptyString => False
                   end) StrWhiteSpaceChars.
Proof. repeat constructor. Qed.

Lemma white_end_not_digit :
  Forall (fun w => match w with
                   | String a _ => is_digit a = false
                   | EmptyString => False
                   end) (map (rev_string "") StrWhiteSpaceChars).
Proof. repeat constructor. Qed.

(** What a legal date string is made of. *)
Lemma parseIsoDate_shape s t :
  parseIsoDate s = Some t ->
  exists y1 y2 y3 y4 m1 m2 d1 d2,
    s = String y1 (String y2 (String y3 (String y4 (String "-"
          (String m1 (String m2 (String "-" (String d1 (String d2 ""))))))))) /\
    forallb is_digit [y1; y2; y3; y4; m1; m2; d1; d2] = true /\
    let y := digits_value (String y1 (String y2 (String y3 (String y4 "")))) in
    let m := digits_value (String m1 (String m2 "")) in
    let d := digits_value (String d1 (String d2 "")) in
    1 <= m <= 12 /\ 1 <= d <= DaysInMonth y (m - 1) /\
    t = MakeDate (MakeDay y (m - 1) d) 0.
Proof.
  intros H.
  do 10 (destruct s as [|? s]; [discriminate H|]).
  destruct s; [|discriminate H].
  unfold parseIsoDate in H.
  destruct (Ascii.eqb_spec a3 "-") as [->|]; [|discriminate H].
  destruct (Ascii.eqb_spec a6 "-") as [->|]; [|discriminate H].
  cbn [andb] in H.
  destruct (forallb is_digit [a; a0; a1; a2; a4; a5; a7; a8]) eqn:Hd; [|discriminate H].
  cbv zeta in H.
  match type of H with
  | (if ?c then _ else _) = _ => destruct c eqn:Hc; [|discriminate H]
  end.
  injection H as <-.
  rewrite !andb_true_iff, !Z.leb_le in Hc.
  exists a, a0, a1, a2, a4, a5, a7, a8.
  repeat split; try assumption; lia.
Qed.

Lemma forallb_8 (p : ascii -> bool) a b c d e f g h :
  forallb p [a; b; c; d; e; f; g; h] = true ->
  p a = true /\ p b = true /\ p c = true /\ p d = true /\
  p e = true /\ p f = true /\ p g = true /\ p h = true.
Proof.
  cbn [forallb]. rewrite !andb_true_iff. tauto.
Qed.

(** A legal date string does not read as a number. *)
Lemma StringToNumber_iso_date s t :
  parseIsoDate s = Some t -> StringToNumber s = NaN.
Proof.
  intros H.
  destruct (parseIsoDate_shape s t H)
    as (y1 & y2 & y3 & y4 & m1 & m2 & d1 & d2 & -> & Hd & _).
  apply forallb_8 in Hd as (H1 & H2 & H3 & H4 & H5 & H6 & H7 & H8).
  unfold StringToNumber.
  assert (Ht : trim
     (String y1 (String y2 (String y3 (String y4 (String "-"
        (String m1 (String m2 (String "-" (String d1 (String d2 ""))))))))))
     = String y1 (String y2 (String y3 (String y4 (String "-"
        (String m1 (String m2 (String "-" (String d1 (String d2 "")))))))))).
  { unfold trim, trimStart. cbn [String.length trim_with].
    rewrite (white_prefix_digit _ _ _ H1 white_start_not_digit).
    unfold trimEnd. cbn [rev_string String.length trim_with].
    rewrite (white_prefix_digit _ _ _ H8 white_end_not_digit).
    reflexivity. }
  rewrite Ht. cbv zeta.
  rewrite !(digit_eqb_false y2) by (assumption || reflexivity).
  rewrite !andb_false_r.
  unfold StrDecimalLiteral.
  rewrite !(digit_eqb_false y1) by (assumption || reflexivity).
  assert (HI : (String y1 (String y2 (String y3 (String y4 (String "-"
        (String m1 (String m2 (String "-" (String d1 (String d2 "")))))))))
        =? "Infinity")%string = false).
  { cbn [String.eqb]. rewrite (digit_eqb_false y1) by (assumption || reflexivity).
    reflexivity. }
  rewrite HI.
  unfold StrUnsignedDecimalLiteral. cbn [span_digits].
  rewrite H1, H2, H3, H4. reflexivity.
Qed.

Lemma monthStart_bounds leap m :
  0 <= leap <= 1 -> 0 <= m <= 11 -> 0 <= monthStart leap m <= 335.
Proof.
  intros Hl Hm. unfold monthStart.
  repeat match goal with
         | |- context [?a =? ?b] => destruct (Z.eqb_spec a b)
         end; lia.
Qed.

Lemma DaysInMonth_bounds y m : 0 <= m <= 11 -> 28 <= DaysInMonth y m <= 31.
Proof.
  intros Hm. unfold DaysInMonth. cbv zeta.
  destruct (DaysInYear y =? 366);
    assert (Hc : m = 0 \/ m = 1 \/ m = 2 \/ m = 3 \/ m = 4 \/ m = 5 \/ m = 6 \/
                 m = 7 \/ m = 8 \/ m = 9 \/ m = 10 \/ m = 11) by lia;
    repeat (destruct Hc as [-> | Hc]; [cbn; lia|]); subst; cbn; lia.
Qed.

Lemma digits4_bounds y1 y2 y3 y4 :
  is_digit y1 = true -> is_digit y2 = true -> is_digit y3 = true -> is_digit y4 = true ->
  digits_value (String y1 (String y2 (String y3 (String y4 ""))))
    = 1000 * digit_value y1 + 100 * digit_value y2 + 10 * digit_value y3 + digit_value y4.
Proof. intros. unfold digits_value. cbn [digits_value_from]. lia. Qed.

(** A legal date is a representable time. *)
Lemma parseIsoDate_in_range s t : parseIsoDate s = Some t -> Z.abs t <= maxTime.
Proof.
  intros H.
  destruct (parseIsoDate_shape s t H)
    as (y1 & y2 & y3 & y4 & m1 & m2 & d1 & d2 & _ & Hd & Hm & Hday & ->).
  apply forallb_8 in Hd as (H1 & H2 & H3 & H4 & H5 & H6 & H7 & H8).
  pose proof (digit_value_bounds _ H1). pose proof (digit_value_bounds _ H2).
  pose proof (digit_value_bounds _ H3). pose proof (digit_value_bounds _ H4).
  rewrite digits4_bounds in * by assumption.
  set (y := 1000 * digit_value y1 + 100 * digit_value y2 + 10 * digit_value y3
            + digit_value y4) in *.
  set (m := digits_value (String m1 (String m2 ""))) in *.
  set (d := digits_value (String d1 (String d2 ""))) in *.
  assert (Hy : 0 <= y <= 9999) by (subst y; lia).
  pose proof (DaysInMonth_bounds y (m - 1) ltac:(lia)) as Hdm.
  unfold MakeDate, MakeDay. cbv zeta.
  replace ((m - 1) / 12) with 0 by (symmetry; apply Z.div_small; lia).
  rewrite Z.mod_small by lia. rewrite !Z.add_0_r.
  pose proof (monthStart_bounds (if DaysInYear y =? 366 then 1 else 0) (m - 1)
                ltac:(destruct (DaysInYear y =? 366); lia) ltac:(lia)) as Hms.
  assert (Hdy : -719528 <= DayFromYear y <= 2932897).
  { unfold DayFromYear. Z.div_mod_to_equations. lia. }
  unfold msPerDay, maxTime. lia.
Qed.

Lemma formatSafeDate_parsed s t formatString :
  parseIsoDate s = Some t ->
  formatSafeDate (Str s) formatString = formatDate (Some t) formatString.
Proof.
  intros H.
  assert (Hne : truthy (Str s) = true).
  { destruct s; [discriminate H|reflexivity]. }
  unfold formatSafeDate. rewrite Hne. cbn [negb typeof_number Number orb].
  rewrite (StringToNumber_iso_date s t H). cbn [isNaN negb newDate_value].
  unfold newDate_string, Date_parse. rewrite H.
  rewrite TimeClip_in_range by (eapply parseIsoDate_in_range; eassumption).
  reflexivity.
Qed.

(** A legal date string is never masked as ["-"]: it does not read as a
    number, and [formatSafeDate] formats the midnight, in UTC, that opens
    its day. *)
Theorem formatSafeDate_iso_date s t formatString :
  parseIsoDate s = Some t ->
  StringToNumber s = NaN /\
  newDate_string s = Some t /\
  formatSafeDate (Str s) formatString = formatDate (Some t) formatString.
Proof.
  intros H. split; [eapply StringToNumber_iso_date; eassumption|]. split.
  - unfold newDate_string, Date_parse. rewrite H.
    apply TimeClip_in_range. eapply parseIsoDate_in_range; eassumption.
  - apply formatSafeDate_parsed. exact H.
Qed.

(** ** Epoch values in text *)

Lemma rev_string_rev_string s : forall acc,
  rev_string "" (rev_string acc s) = rev_string s acc.
Proof.
  induction s as [|c s IH]; intros acc; cbn [rev_string]; [reflexivity|].
  rewrite IH. reflexivity.
Qed.

Lemma rev_string_empty s : forall acc, rev_string acc s = "" -> s = "" /\ acc = "".
Proof.
  induction s as [|c s IH]; intros acc H; cbn [rev_string] in H; [auto|].
  destruct (IH _ H) as [_ E]. discriminate E.
Qed.

Lemma digits_only_rev s : forall acc,
  digits_only s = true -> digits_only acc = true ->
  digits_only (rev_string acc s) = true.
Proof.
  induction s as [|c s IH]; intros acc Hs Ha; cbn [rev_string]; [exact Ha|].
  cbn [digits_only] in Hs. apply andb_true_iff in Hs as [Hc Hs].
  apply IH; [exact Hs|]. cbn [digits_only]. rewrite Hc, Ha. reflexivity.
Qed.

(** There is no white space to trim around digits. *)
Lemma trim_digits s : digits_only s = true -> trim s = s.
Proof.
  intros H. destruct s as [|c s]; [reflexivity|].
  pose proof H as Hall.
  cbn [digits_only] in H. apply andb_true_iff in H as [Hc Hs].
  unfold trim, trimStart. cbn [String.length trim_with].
  rewrite (white_prefix_digit _ _ _ Hc white_start_not_digit).
  unfold trimEnd. cbv zeta.
  pose proof (digits_only_rev (String c s) "" Hall eq_refl) as Hr.
  destruct (rev_string "" (String c s)) as [|c' r] eqn:E.
  - apply rev_string_empty in E. destruct E as [E _]. discriminate E.
  - cbn [digits_only] in Hr. apply andb_true_iff in Hr as [Hc' _].
    cbn [String.length trim_with].
    rewrite (white_prefix_digit _ _ _ Hc' white_end_not_digit).
    rewrite <- E, rev_string_rev_string. reflexivity.
Qed.

Lemma span_digits_only s : digits_only s = true -> span_digits s = (s, "").
Proof.
  induction s as [|c s IH]; intros H; [reflexivity|].
  cbn [digits_only] in H. apply andb_true_iff in H as [Hc Hs].
  cbn [span_digits]. rewrite Hc, (IH Hs). reflexivity.
Qed.

Lemma digits_value_from_nonneg s : forall acc,
  digits_only s = true -> 0 <= acc -> 0 <= digits_value_from acc s.
Proof.
  induction s as [|c s IH]; intros acc H Ha; [exact Ha|].
  cbn [digits_only] in H. apply andb_true_iff in H as [Hc Hs].
  cbn [digits_value_from]. apply IH; [exact Hs|].
  pose proof (digit_value_bounds c Hc). lia.
Qed.

(** A string of decimal digits reads as the number its digits denote,
    rounded to binary64. *)
Lemma StringToNumber_digits s :
  digits_only s = true -> s <> "" ->
  StringToNumber s = roundToBinary64 (inject_Z (digits_value s)).
Proof.
  intros H Hne. unfold StringToNumber. rewrite (trim_digits s H). cbv zeta.
  destruct s as [|c s]; [contradiction|].
  pose proof H as Hall.
  cbn [digits_only] in H. apply andb_true_iff in H as [Hc Hs].
  assert (Hdec : StrDecimalLiteral (String c s)
                 = roundToBinary64 (inject_Z (digits_value (String c s)))).
  { unfold StrDecimalLiteral.
    rewrite !(digit_eqb_false c) by (assumption || reflexivity).
    assert (HI : (String c s =? "Infinity")%string = false).
    { cbn [String.eqb]. rewrite (digit_eqb_false c) by (assumption || reflexivity).
      reflexivity. }
    rewrite HI.
    unfold StrUnsignedDecimalLiteral. rewrite (span_digits_only _ Hall).
    cbv beta iota zeta. cbn [ExponentPart String.length Z.of_nat].
    rewrite append_nil_r. unfold scale10.
    change (0 <=? 0 - 0) with true. cbv iota.
    change (10 ^ (0 - 0)) with 1. rewrite Z.mul_1_r. reflexivity. }
  destruct s as [|x r]; [exact Hdec|].
  cbn [digits_only] in Hs. apply andb_true_iff in Hs as [Hx _].
  rewrite !(digit_eqb_false x) by (assumption || reflexivity).
  rewrite !andb_false_r. exact Hdec.
Qed.

Lemma isNaN_roundToBinary64 q : isNaN (roundToBinary64 q) = false.
Proof.
  unfold roundToBinary64. cbv zeta.
  destruct (Z.abs (Qnum q) =? 0); [reflexivity|].
  match goal with |- context [if ?c && ?d then _ else _] => destruct (c && d) end;
    reflexivity.
Qed.

Lemma num_gt_of_Z a b : num_gt (number_of_Z a) (number_of_Z b) = (b <? a).
Proof.
  unfold num_gt, number_of_Z, Qle_bool, inject_Z. cbn [Qnum Qden].
  rewrite !Z.mul_1_r. rewrite Z.ltb_antisym. reflexivity.
Qed.

(** How [formatSafeDate] reads a value that is a number or reads as one. *)
Lemma formatSafeDate_epoch v n formatString :
  truthy v = true ->
  v = Num n \/ (exists s, v = Str s /\ StringToNumber s = n /\ isNaN n = false) ->
  formatSafeDate v formatString =
    match (if num_gt n (number_of_Z 1000000000000)
           then TimeClipNumber n
           else TimeClipNumber (num_mul n (number_of_Z 1000))) with
    | Some t => formatDate (Some t) formatString
    | None => "-"
    end.
Proof.
  intros Hv Hn. unfold formatSafeDate. rewrite Hv. cbn [negb].
  assert (Hc : typeof_number v || negb (isNaN (Number v)) = true /\ Number v = n).
  { destruct Hn as [->|(s & -> & Hs & Hnan)]; simpl.
    - auto.
    - rewrite Hs, Hnan. auto. }
  destruct Hc as [Hc Hnum]. rewrite Hnum in Hc |- *. rewrite Hc.
  unfold fromUnixTime, newDate_number, isValidDate, getTime.
  destruct (num_gt n (number_of_Z 1000000000000));
    match goal with |- context [TimeClipNumber ?x] => destruct (TimeClipNumber x) end;
    reflexivity.
Qed.

(** The same on a whole number within the integers binary64 holds
    exactly. *)
Lemma formatSafeDate_epoch_integer v z formatString :
  truthy v = true ->
  v = Num (number_of_Z z) \/ (exists s, v = Str s /\ StringToNumber s = number_of_Z z) ->
  formatSafeDate v formatString =
    match TimeClip (epochMilliseconds_documented z) with
    | Some t => formatDate (Some t) formatString
    | None => "-"
    end.
Proof.
  intros Hv Hn.
  rewrite (formatSafeDate_epoch v (number_of_Z z) formatString Hv).
  - rewrite num_gt_of_Z, TimeClipNumber_of_Z, TimeClipNumber_seconds.
    unfold epochMilliseconds_documented.
    destruct (1000000000000 <? z); reflexivity.
  - destruct Hn as [->|(s & -> & Hs)]; [left; reflexivity|].
    right. exists s. split; [reflexivity|]. split; [exact Hs|reflexivity].
Qed.

(** C1.  [formatSafeDate] is a total function to strings.  A falsy value
    gives ["-"].  A number, or a string that reads as a number, is an epoch
    value: milliseconds when it exceeds 1,000,000,000,000 and seconds
    otherwise; any other string is parsed as a date; and when no valid date
    comes out of that the result is ["-"].  On the epoch values of the
    documentation, whole numbers given as a number or written in decimal
    digits, the result is the formatting of the time the documented reading
    gives, or ["-"] when that time is not representable.  The number a
    string reads as is a binary64 value, and it is this value that is set
    against the threshold.  The epoch values 1714022400 and 1714022400000
    format the same instant, as numbers and as strings, and [undefined]
    gives ["-"]. *)
Theorem formatSafeDate_spec formatString :
  (forall v, truthy v = false -> formatSafeDate v formatString = "-") /\
  (forall v n,
     truthy v = true ->
     v = Num n \/ (exists s, v = Str s /\ StringToNumber s = n /\ isNaN n = false) ->
     formatSafeDate v formatString =
       match (if num_gt n (number_of_Z 1000000000000)
              then TimeClipNumber n
              else TimeClipNumber (num_mul n (number_of_Z 1000))) with
       | Some t => formatDate (Some t) formatString
       | None => "-"
       end) /\
  (forall s,
     truthy (Str s) = true -> isNaN (StringToNumber s) = true ->
     formatSafeDate (Str s) formatString =
       match newDate_string s with
       | Some t => formatDate (Some t) formatString
       | None => "-"
       end) /\
  (forall v z,
     (v = Num (number_of_Z z) /\ z <> 0) \/
     (exists s, v = Str s /\ digits_only s = true /\ s <> "" /\ digits_value s = z) ->
     formatSafeDate v formatString =
       match TimeClip (epochMilliseconds_documented z) with
       | Some t => formatDate (Some t) formatString
       | None => "-"
       end) /\
  formatSafeDate (Num (number_of_Z 1714022400)) formatString
    = formatDate (Some 1714022400000) formatString /\
  formatSafeDate (Num (number_of_Z 1714022400000)) formatString
    = formatDate (Some 1714022400000) formatString /\
  formatSafeDate (Str "1714022400") formatString
    = formatDate (Some 1714022400000) formatString /\
  formatSafeDate (Str "1714022400000") formatString
    = formatDate (Some 1714022400000) formatString /\
  (StringToNumber "1000000000000.00001" = number_of_Z 1000000000000 /\
   formatSafeDate (Str "1000000000000.00001") formatString
     = formatDate (Some 1000000000000000) formatString) /\
  formatSafeDate Undefined formatString = "-".
Proof.
  assert (Hint : forall v z,
     (v = Num (number_of_Z z) /\ z <> 0) \/
     (exists s, v = Str s /\ digits_only s = true /\ s <> "" /\ digits_value s = z) ->
     formatSafeDate v formatString =
       match TimeClip (epochMilliseconds_documented z) with
       | Some t => formatDate (Some t) formatString
       | None => "-"
       end).
  { intros v z [[-> Hz]|(s & -> & Hd & Hne & Hval)].
    - apply formatSafeDate_epoch_integer; [|left; reflexivity].
      cbn. apply negb_true_iff, Z.eqb_neq. exact Hz.
    - assert (Htr : truthy (Str s) = true) by (destruct s; [contradiction|reflexivity]).
      assert (Hz : 0 <= z).
      { rewrite <- Hval. apply digits_value_from_nonneg; [exact Hd|lia]. }
      pose proof (StringToNumber_digits s Hd Hne) as Hnum. rewrite Hval in Hnum.
      destruct (Z.lt_ge_cases z (2 ^ 53)) as [Hsmall|Hbig].
      + apply formatSafeDate_epoch_integer; [exact Htr|].
        right. exists s. split; [reflexivity|].
        rewrite Hnum. apply roundToBinary64_integer. lia.
      + rewrite pow2_53 in Hbig.
        assert (Hclip : TimeClip (epochMilliseconds_documented z) = None).
        { apply TimeClip_out_of_range. unfold epochMilliseconds_documented, maxTime.
          destruct (Z.ltb_spec 1000000000000 z); lia. }
        rewrite Hclip.
        rewrite (formatSafeDate_epoch (Str s) (roundToBinary64 (inject_Z z)) formatString Htr).
        2:{ right. exists s. split; [reflexivity|].
            split; [exact Hnum|apply isNaN_roundToBinary64]. }
        destruct (roundToBinary64_large z) as [E|(M & HM & E)];
          [rewrite pow2_53; lia| |]; rewrite E.
        * destruct (Z.ltb_spec z 0); [lia|]. reflexivity.
        * destruct (Z.ltb_spec z 0); [lia|].
          rewrite pow2_53 in HM.
          change (Finite (inject_Z M)) with (number_of_Z M).
          rewrite num_gt_of_Z, TimeClipNumber_of_Z.
          destruct (Z.ltb_spec 1000000000000 M); [|lia].
          rewrite TimeClip_out_of_range by (unfold maxTime; lia). reflexivity. }
  split; [|split; [|split; [|split; [exact Hint|]]]].
  - intros v Hv. unfold formatSafeDate. rewrite Hv. reflexivity.
  - intros v n. apply formatSafeDate_epoch.
  - intros s Hv Hn. unfold formatSafeDate. rewrite Hv. cbn [negb].
    cbn [typeof_number Number orb]. rewrite Hn. cbn [negb newDate_value].
    unfold isValidDate, getTime. destruct (newDate_string s); reflexivity.
  - split; [|split; [|split; [|split; [|split; [split|]]]]].
    + apply (Hint (Num (number_of_Z 1714022400)) 1714022400). left. split; [reflexivity|lia].
    + apply (Hint (Num (number_of_Z 1714022400000)) 1714022400000).
      left. split; [reflexivity|lia].
    + apply (Hint (Str "1714022400") 1714022400). right.
      exists "1714022400". repeat split. discriminate.
    + apply (Hint (Str "1714022400000") 1714022400000). right.
      exists "1714022400000". repeat split. discriminate.
    + vm_compute. reflexivity.
    + apply (formatSafeDate_epoch_integer (Str "1000000000000.00001") 1000000000000);
        [reflexivity|].
      right. eexists. split; [reflexivity|]. vm_compute. reflexivity.
    + reflexivity.
Qed.

(** ** From a legal date string to a date and back *)

Lemma DayFromYear_mono a b : a <= b -> DayFromYear a <= DayFromYear b.
Proof. intros H. unfold DayFromYear. Z.div_mod_to_equations. lia. Qed.

Lemma YearFromDay_unique y n :
  DayFromYear y <= n < DayFromYear (y + 1) -> YearFromDay n = y.
Proof.
  intros H. pose proof (YearFromDay_spec n) as S.
  destruct (Z.lt_trichotomy (YearFromDay n) y) as [L|[E|G]]; [|exact E|].
  - pose proof (DayFromYear_mono (YearFromDay n + 1) y ltac:(lia)). lia.
  - pose proof (DayFromYear_mono (y + 1) (YearFromDay n) ltac:(lia)). lia.
Qed.

Ltac eval_monthStart :=
  repeat match goal with
         | |- context [monthStart ?l ?k] =>
             let v := eval vm_compute in (monthStart l k) in
             change (monthStart l k) with v
         | H : context [monthStart ?l ?k] |- _ =>
             let v := eval vm_compute in (monthStart l k) in
             change (monthStart l k) with v in H
         end.

(** The local year, month and day of the midnight, in UTC, of a legal
    day, where local time is not behind UTC: that very day. *)
Lemma components_of_MakeDay y m d tz :
  0 <= m <= 11 -> 1 <= d <= DaysInMonth y m -> 0 <= tz < msPerDay ->
  let t := MakeDate (MakeDay y m d) 0 + tz in
  YearFromTime t = y /\ MonthFromTime t = m /\ DateFromTime t = d.
Proof.
  intros Hm Hd Htz t.
  assert (Hday : Day t = MakeDay y m d).
  { subst t. unfold Day, MakeDate. unfold msPerDay in *.
    Z.div_mod_to_equations. lia. }
  unfold MakeDay in Hday. cbv zeta in Hday.
  replace (m / 12) with 0 in Hday by (symmetry; apply Z.div_small; lia).
  rewrite Z.mod_small, Z.add_0_r in Hday by lia.
  set (leap := if DaysInYear y =? 366 then 1 else 0) in *.
  assert (Hleap : DaysInYear y = 365 + leap).
  { subst leap. destruct (DaysInYear_cases y) as [E|E]; rewrite E; reflexivity. }
  assert (Hl : leap = 0 \/ leap = 1)
    by (subst leap; destruct (DaysInYear y =? 366); auto).
  assert (Hin : 0 <= monthStart leap m + d - 1 < 365 + leap /\
                monthStart leap m <= monthStart leap m + d - 1 /\
                (m < 11 -> monthStart leap m + d - 1 < monthStart leap (m + 1))).
  { unfold DaysInMonth in Hd. cbv zeta in Hd. fold leap in Hd.
    pose proof (monthStart_bounds leap m ltac:(lia) Hm).
    destruct (Z.eqb_spec m 11) as [->|]; [lia|].
    pose proof (monthStart_bounds leap (m + 1) ltac:(lia) ltac:(lia)). lia. }
  assert (Hy : YearFromTime t = y).
  { unfold YearFromTime. apply YearFromDay_unique.
    rewrite DayFromYear_step, Hday, Hleap. lia. }
  assert (Hw : DayWithinYear t = monthStart leap m + d - 1)
    by (unfold DayWithinYear; rewrite Hy, Hday; lia).
  assert (Hil : InLeapYear t = leap) by (unfold InLeapYear; rewrite Hy; reflexivity).
  assert (Hmo : MonthFromTime t = m).
  { unfold MonthFromTime. cbv zeta. rewrite Hw, Hil.
    destruct Hin as (_ & Hlo & Hhi).
    clear - Hm Hl Hlo Hhi.
    assert (Hc : m = 0 \/ m = 1 \/ m = 2 \/ m = 3 \/ m = 4 \/ m = 5 \/ m = 6 \/
                 m = 7 \/ m = 8 \/ m = 9 \/ m = 10 \/ m = 11) by lia.
    clear Hm.
    destruct Hl as [-> | ->];
      repeat (destruct Hc as [-> | Hc]; [eval_monthStart; split_ltb; lia|]);
      subst m; eval_monthStart; split_ltb; lia. }
  repeat split; try assumption.
  unfold DateFromTime. rewrite Hw, Hil, Hmo. lia.
Qed.

Lemma year4_digits_all :
  all_from (Z.to_nat 9000) 1000
    (fun y => (toString (Some y) =?
               String (digit_char (y / 1000))
                 (String (digit_char (y / 100 mod 10))
                   (String (digit_char (y / 10 mod 10))
                     (String (digit_char (y mod 10)) ""))))%string) = true.
Proof. vm_compute. reflexivity. Qed.

Lemma pad2_digits_all :
  all_from (Z.to_nat 100) 0
    (fun v => (pad2 (Some v) =?
               String (digit_char (v / 10)) (String (digit_char (v mod 10)) ""))%string)
  = true.
Proof. vm_compute. reflexivity. Qed.

Lemma toString_year4 y1 y2 y3 y4 :
  is_digit y1 = true -> is_digit y2 = true -> is_digit y3 = true -> is_digit y4 = true ->
  y1 <> "0"%char ->
  toString (Some (digits_value (String y1 (String y2 (String y3 (String y4 ""))))))
    = String y1 (String y2 (String y3 (String y4 ""))).
Proof.
  intros H1 H2 H3 H4 Hn.
  rewrite digits4_bounds by assumption.
  pose proof (digit_value_bounds _ H1) as B1. pose proof (digit_value_bounds _ H2) as B2.
  pose proof (digit_value_bounds _ H3) as B3. pose proof (digit_value_bounds _ H4) as B4.
  assert (B1' : digit_value y1 <> 0).
  { intros E. apply Hn. rewrite <- (digit_char_value y1 H1), E. reflexivity. }
  set (y := 1000 * digit_value y1 + 100 * digit_value y2 + 10 * digit_value y3
            + digit_value y4).
  pose proof (all_from_spec _ _ _ year4_digits_all y) as E.
  rewrite Z2Nat.id in E by lia. specialize (E ltac:(subst y; lia)).
  apply String.eqb_eq in E. rewrite E.
  replace (y / 1000) with (digit_value y1) by (subst y; Z.div_mod_to_equations; lia).
  replace (y / 100 mod 10) with (digit_value y2) by (subst y; Z.div_mod_to_equations; lia).
  replace (y / 10 mod 10) with (digit_value y3) by (subst y; Z.div_mod_to_equations; lia).
  replace (y mod 10) with (digit_value y4) by (subst y; Z.div_mod_to_equations; lia).
  rewrite !digit_char_value by assumption. reflexivity.
Qed.

Lemma pad2_digits2 c1 c2 :
  is_digit c1 = true -> is_digit c2 = true ->
  pad2 (Some (digits_value (String c1 (String c2 "")))) = String c1 (String c2 "").
Proof.
  intros H1 H2.
  pose proof (digit_value_bounds _ H1) as B1. pose proof (digit_value_bounds _ H2) as B2.
  unfold digits_value. cbn [digits_value_from].
  set (v := 10 * (10 * 0 + digit_value c1) + digit_value c2).
  pose proof (all_from_spec _ _ _ pad2_digits_all v) as E.
  rewrite Z2Nat.id in E by lia. specialize (E ltac:(subst v; lia)).
  apply String.eqb_eq in E. rewrite E.
  replace (v / 10) with (digit_value c1) by (subst v; Z.div_mod_to_equations; lia).
  replace (v mod 10) with (digit_value c2) by (subst v; Z.div_mod_to_equations; lia).
  rewrite !digit_char_value by assumption. reflexivity.
Qed.

(** Where local time is not behind UTC, a legal date string of the year
    1000 or later comes back unchanged from [formatSafeDate] with the
    format [yyyy-MM-dd]. *)
Theorem formatSafeDate_iso_roundtrip s t :
  parseIsoDate s = Some t ->
  prefix "0" s = false ->
  0 <= LocalTZA < msPerDay ->
  formatSafeDate (Str s) "yyyy-MM-dd" = s.
Proof.
  intros H H0 Htz.
  rewrite (formatSafeDate_parsed s t _ H).
  destruct (parseIsoDate_shape s t H)
    as (y1 & y2 & y3 & y4 & m1 & m2 & d1 & d2 & -> & Hd & Hm & Hday & ->).
  apply forallb_8 in Hd as (H1 & H2 & H3 & H4 & H5 & H6 & H7 & H8).
  assert (Hn : y1 <> "0"%char).
  { intros ->. rewrite prefix_cons_eq in H0. discriminate H0. }
  set (y := digits_value (String y1 (String y2 (String y3 (String y4 ""))))) in *.
  set (m := digits_value (String m1 (String m2 ""))) in *.
  set (d := digits_value (String d1 (String d2 ""))) in *.
  destruct (components_of_MakeDay y (m - 1) d LocalTZA ltac:(lia) Hday Htz)
    as (Ey & Em & Ed).
  rewrite formatDate_formatTokens. int_simpl. unfold LocalTime.
  rewrite Ey, Em, Ed.
  replace (m - 1 + 1) with m by lia.
  subst y m d.
  rewrite toString_year4 by assumption.
  rewrite !pad2_digits2 by assumption.
  reflexivity.
Qed.

(** ** A range of one day *)

Lemma newDate_string_iso s t : parseIsoDate s = Some t -> newDate_string s = Some t.
Proof.
  intros H. unfold newDate_string, Date_parse. rewrite H.
  apply TimeClip_in_range. eapply parseIsoDate_in_range; eassumption.
Qed.

(** Where local time is not behind UTC, the local calendar day of the
    instant a legal date string denotes is the day the string names. *)
Lemma calendarDay_iso s t :
  parseIsoDate s = Some t -> 0 <= LocalTZA < msPerDay -> calendarDay t = namedDay s.
Proof.
  intros H Htz.
  destruct (parseIsoDate_shape s t H)
    as (y1 & y2 & y3 & y4 & m1 & m2 & d1 & d2 & -> & _ & Hm & Hday & ->).
  unfold namedDay. cbn [substring].
  set (y := digits_value (String y1 (String y2 (String y3 (String y4 ""))))) in *.
  set (m := digits_value (String m1 (String m2 ""))) in *.
  set (d := digits_value (String d1 (String d2 ""))) in *.
  destruct (components_of_MakeDay y (m - 1) d LocalTZA ltac:(lia) Hday Htz)
    as (Ey & Em & Ed).
  unfold calendarDay, LocalTime. rewrite Ey, Em, Ed. reflexivity.
Qed.

(** C4.  On a host whose local time is not behind UTC: when the start and
    the end of the range are the same date string [s], a legal date in the
    form [YYYY-MM-DD], a date is selectable exactly when it falls on the
    calendar day [s] names, whatever today is.  The test for a range of
    one day is made first and decides, also when the range ends today; in
    that case the rule for a range ending today would give the same
    answer. *)
Theorem isDateDisabled_same_start_end date s today t0 :
  parseIsoDate s = Some t0 ->
  0 <= LocalTZA < msPerDay ->
  (negb (isDateDisabled date s s today) = true <->
     exists t, date = Some t /\ calendarDay t = namedDay s) /\
  (isSameDay (newDate_string s) today = true ->
     isDateDisabled date s s today = negb (isSameDay date today)).
Proof.
  intros Hp Htz.
  pose proof (newDate_string_iso s t0 Hp) as Hs.
  pose proof (calendarDay_iso s t0 Hp Htz) as Hday.
  assert (Hne : negb (s =? "")%string = true) by (destruct s; [discriminate Hp|reflexivity]).
  assert (Hrefl : isSameDay (Some t0) (Some t0) = true)
    by (apply isSameDay_calendarDay; reflexivity).
  assert (Hcase1 : isDateDisabled date s s today = negb (isSameDay date (Some t0))).
  { unfold isDateDisabled. cbv zeta. rewrite Hne, Hs, Hrefl. reflexivity. }
  rewrite Hcase1, Hs. split.
  - rewrite negb_involutive, <- Hday.
    destruct date as [t|].
    + rewrite isSameDay_calendarDay. split.
      * intros H. exists t. auto.
      * intros (t' & E & H). injection E as <-. exact H.
    + split; [discriminate|]. intros (t' & E & _). discriminate.
  - intros Hboth. destruct today as [n|]; [|discriminate Hboth].
    apply isSameDay_calendarDay in Hboth.
    destruct date as [t|]; [|reflexivity].
    f_equal. apply eq_true_iff_eq.
    rewrite !isSameDay_calendarDay, Hboth. reflexivity.
Qed.

(** ** What the weekday search recognises *)

Lemma indexOf_from_found a x : forall i k,
  indexOf_from i a x = k -> k <> -1 -> 0 <= i ->
  i <= k /\ nth_error a (Z.to_nat (k - i)) = Some x.
Proof.
  induction a as [|y a IH]; intros i k H Hk Hi; simpl in H; [congruence|].
  destruct (String.eqb_spec y x) as [->|Hne].
  - subst k. split; [lia|]. replace (i - i) with 0 by lia. reflexivity.
  - destruct (IH (i + 1) k H Hk ltac:(lia)) as [Hle Hn]. split; [lia|].
    replace (Z.to_nat (k - i)) with (S (Z.to_nat (k - (i + 1)))) by lia.
    exact Hn.
Qed.

Lemma findDay_found day : forall formats format index,
  findDay formats day = Some (format, index) ->
  array_get (DAY_MAPPINGS_at format) (Some index) = Some day.
Proof.
  induction formats as [|f fs IH]; intros format index H; simpl in H; [discriminate|].
  destruct (Z.eqb_spec (indexOf (DAY_MAPPINGS_at f) day) (-1)) as [E|E]; simpl in H.
  - apply IH. exact H.
  - injection H as <- <-.
    destruct (indexOf_from_found (DAY_MAPPINGS_at f) day 0 _ eq_refl E ltac:(lia))
      as [Hle Hn].
    unfold array_get. destruct (Z.ltb_spec (indexOf (DAY_MAPPINGS_at f) day) 0);
      [unfold indexOf in *; lia|].
    rewrite Z.sub_0_r in Hn. exact Hn.
Qed.

(** [getDayIndex] answers [i] exactly for the texts that stand at index
    [i] in one of the six tables, letter for letter; any other text,
    whatever its case or spelling, gives [null]. *)
Theorem getDayIndex_known day i :
  getDayIndex day = Some i <->
  exists format, array_get (DAY_MAPPINGS_at format) (Some i) = Some day.
Proof.
  split.
  - unfold getDayIndex.
    destruct (findDay (Object_keys DAY_MAPPINGS) day) as [[f k]|] eqn:E; [|discriminate].
    intros H. injection H as <-. exists f. eapply findDay_found. exact E.
  - intros [format H]. unfold array_get in H.
    destruct (Z.ltb_spec i 0) as [Hi|Hi]; [discriminate|].
    assert (Hlt : (Z.to_nat i < 7)%nat).
    { rewrite <- (DAY_MAPPINGS_at_length format). apply nth_error_Some. congruence. }
    assert (Hc : i = 0 \/ i = 1 \/ i = 2 \/ i = 3 \/ i = 4 \/ i = 5 \/ i = 6) by lia.
    destruct Hc as [-> | [-> | [-> | [-> | [-> | [-> | ->]]]]]];
      destruct format; injection H as <-; reflexivity.
Qed.

(** [getNextDayOfWeek] gives [null] exactly for the weekday names
    [getDayIndex] does not know, whatever the base date; for a known name
    and an Invalid Date as base it gives an Invalid Date. *)
Theorem getNextDayOfWeek_null targetDay (baseDate : Date) (searchForward : bool) :
  (getNextDayOfWeek targetDay baseDate searchForward = None <->
   getDayIndex targetDay = None) /\
  (getDayIndex targetDay <> None ->
   getNextDayOfWeek targetDay None searchForward = Some None).
Proof.
  unfold getNextDayOfWeek.
  destruct (getDayIndex targetDay) as [k|]; split.
  - split; discriminate.
  - intros _. destruct searchForward; reflexivity.
  - split; reflexivity.
  - intros H. contradiction.
Qed.

(** ** The month to open, when the range does not parse *)

(** [getDefaultOpenMonth] never returns an Invalid Date when today is a
    valid date, even if the strings of the range do not parse; and it
    returns today when both strings are empty. *)
Theorem getDefaultOpenMonth_valid s e n :
  (exists t, getDefaultOpenMonth s e (Some n) = Some t) /\
  getDefaultOpenMonth "" "" (Some n) = Some n.
Proof.
  split.
  - unfold getDefaultOpenMonth. cbv zeta.
    destruct (if negb (s =? "")%string then newDate_string s else Some n) as [a|];
      destruct (if negb (e =? "")%string then newDate_string e else Some n) as [b|];
      unfold date_lt, date_gt, int_gt, int_lt, getTime;
      repeat match goal with
             | |- context [?x <? ?y] => destruct (x <? y)
             end; eexists; reflexivity.
  - unfold getDefaultOpenMonth, date_lt, date_gt, int_gt, int_lt, getTime.
    cbn [String.eqb negb]. rewrite Z.ltb_irrefl. reflexivity.
Qed.

(** ** What safe formatting can return *)

Lemma TimeClip_range t u : TimeClip t = Some u -> Z.abs u <= maxTime.
Proof.
  unfold TimeClip. destruct (Z.leb_spec (Z.abs t) maxTime) as [Hle|Hgt]; [|discriminate].
  intros E. injection E as <-. exact Hle.
Qed.

Lemma TimeClipNumber_range x u : TimeClipNumber x = Some u -> Z.abs u <= maxTime.
Proof.
  destruct x as [| |q]; try discriminate. unfold TimeClipNumber.
  destruct (Qle_bool (Qabs q) (inject_Z maxTime)) eqn:E; [|discriminate].
  intros H. injection H as <-.
  unfold Qle_bool, Qabs, inject_Z in E. destruct q as [num den]. cbn [Qnum Qden] in *.
  apply Z.leb_le in E. rewrite Z.mul_1_r in E.
  assert (Hd : 0 < Z.pos den) by lia.
  rewrite <- Z.quot_abs by lia.
  rewrite (Z.abs_eq (Z.pos den)) by lia.
  rewrite Z.quot_div_nonneg by lia.
  apply Z.div_le_upper_bound; [lia|]. unfold maxTime in *. lia.
Qed.

(** [formatSafeDate] never formats an Invalid Date: its result is ["-"] or
    the text [formatDate] gives for a valid date. *)
Theorem formatSafeDate_valid_or_dash dateValue formatString :
  formatSafeDate dateValue formatString = "-" \/
  exists t, Z.abs t <= maxTime /\
            formatSafeDate dateValue formatString = formatDate (Some t) formatString.
Proof.
  unfold formatSafeDate. destruct (truthy dateValue); [|left; reflexivity].
  cbn [negb].
  set (date := if typeof_number dateValue || negb (isNaN (Number dateValue))
               then if num_gt (Number dateValue) (number_of_Z 1000000000000)
                    then newDate_number (Number dateValue)
                    else fromUnixTime (Number dateValue)
               else newDate_value dateValue).
  assert (Hd : forall t, date = Some t -> Z.abs t <= maxTime).
  { intros t. subst date. unfold fromUnixTime, newDate_number.
    destruct (typeof_number dateValue || negb (isNaN (Number dateValue))).
    - destruct (num_gt _ _); apply TimeClipNumber_range.
    - destruct dateValue as [|x|s]; cbn [newDate_value]; [discriminate| |].
      + apply TimeClipNumber_range.
      + unfold newDate_string. destruct (Date_parse s); [|discriminate].
        apply TimeClip_range. }
  destruct date as [t|]; [|left; reflexivity].
  right. exists t. split; [apply Hd; reflexivity|reflexivity].
Qed.

End DateModule.

(** * Facts about the array module *)

Section ArrayFacts.

Variable T : Type.
Variable T_eq_dec : forall x y : T, {x = y} + {x <> y}.

Lemma Set_add_all_spec (array : list T) : forall members,
  NoDup members ->
  NoDup (Set_add_all T_eq_dec members array) /\
  (forall x, In x (Set_add_all T_eq_dec members array) <-> In x members \/ In x array) /\
  (NoDup (members ++ array) -> Set_add_all T_eq_dec members array = members ++ array)%list.
Proof.
  induction array as [|a array IH]; intros members Hm; cbn [Set_add_all].
  - split; [exact Hm|]. split.
    + intros x. simpl. tauto.
    + intros _. symmetry. apply app_nil_r.
  - destruct (in_dec T_eq_dec a members) as [Hin|Hin].
    + destruct (IH members Hm) as (H1 & H2 & H3).
      split; [exact H1|]. split.
      * intros x. rewrite H2. simpl. split; [tauto|].
        intros [H|[<-|H]]; auto.
      * intros Hnd. exfalso.
        apply NoDup_remove_2 in Hnd. apply Hnd. apply in_or_app. left. exact Hin.
    + assert (Hm' : NoDup (members ++ [a])).
      { apply NoDup_app; [exact Hm|repeat constructor; simpl; tauto|].
        intros x Hx [<-|[]]. contradiction. }
      destruct (IH (members ++ [a])%list Hm') as (H1 & H2 & H3).
      split; [exact H1|]. split.
      * intros x. rewrite H2, in_app_iff. simpl. tauto.
      * intros Hnd. rewrite H3; rewrite <- app_assoc; [reflexivity|exact Hnd].
Qed.

(** [removeDuplicates] keeps exactly the values of the array, each of them
    once, and gives an array without repetition back as it is. *)
Theorem removeDuplicates_spec (array : list T) :
  NoDup (removeDuplicates T_eq_dec array) /\
  (forall x, In x (removeDuplicates T_eq_dec array) <-> In x array) /\
  (NoDup array -> removeDuplicates T_eq_dec array = array).
Proof.
  destruct (Set_add_all_spec array [] (NoDup_nil T)) as (H1 & H2 & H3).
  unfold removeDuplicates. split; [exact H1|]. split.
  - intros x. rewrite H2. simpl. tauto.
  - exact H3.
Qed.

Lemma firstn_add (p q : nat) : forall a : list T,
  firstn (p + q) a = (firstn p a ++ firstn q (skipn p a))%list.
Proof.
  induction p as [|p IH]; intros a; [reflexivity|].
  destruct a as [|x a]; [simpl; rewrite firstn_nil; reflexivity|].
  simpl. f_equal. apply IH.
Qed.

Lemma slice_from (a : list T) (s n : nat) :
  slice a (Z.of_nat s) (Z.of_nat s + Z.of_nat n) = firstn n (skipn s a).
Proof.
  unfold slice. cbv zeta.
  destruct (Z.ltb_spec (Z.of_nat s) 0); [lia|].
  destruct (Z.ltb_spec (Z.of_nat s + Z.of_nat n) 0); [lia|].
  set (len := List.length a).
  replace (Z.to_nat (Z.min (Z.of_nat s) (Z.of_nat len))) with (Nat.min s len) by lia.
  replace (Z.to_nat (Z.min (Z.of_nat s + Z.of_nat n) (Z.of_nat len)
                     - Z.min (Z.of_nat s) (Z.of_nat len)))
    with (Nat.min (s + n) len - Nat.min s len)%nat by lia.
  destruct (Nat.le_gt_cases len s) as [Hs|Hs].
  - rewrite (skipn_all2 a (n := s)) by exact Hs.
    rewrite (skipn_all2 a (n := Nat.min s len)) by (fold len; lia).
    rewrite !firstn_nil. reflexivity.
  - replace (Nat.min s len) with s by lia.
    destruct (Nat.le_gt_cases (s + n) len) as [He|He].
    + f_equal. lia.
    + rewrite !firstn_all2; [reflexivity| |]; rewrite length_skipn; fold len; lia.
Qed.

Lemma concat_chunks (sz : nat) (a : list T) : forall n,
  List.concat (map (fun j => firstn sz (skipn (j * sz) a)) (seq 0 n)) = firstn (n * sz) a.
Proof.
  induction n as [|n IH]; [reflexivity|].
  rewrite seq_S, map_app, concat_app, IH. simpl.
  rewrite app_nil_r. rewrite <- firstn_add. f_equal. lia.
Qed.

(** For a positive size, the chunks put end to end are the array; there
    are as many as the length divided by the size, rounded up; none is
    empty or longer than the size, and all but the last have the full
    size. *)
Theorem chunk_positive (array : list T) (size : Z) :
  0 < size ->
  exists chunks,
    chunk array size = Some chunks /\
    List.concat chunks = array /\
    Z.of_nat (List.length chunks) = - ((- Z.of_nat (List.length array)) / size) /\
    Forall (fun c => 1 <= Z.of_nat (List.length c) <= size) chunks /\
    (forall j, (S j < List.length chunks)%nat ->
               Z.of_nat (List.length (nth j chunks [])) = size).
Proof.
  intros Hsz. unfold chunk. cbv zeta.
  destruct (Z.eqb_spec size 0) as [E0|E0]; [lia|].
  set (len := List.length array).
  set (cnt := - (- Z.of_nat len / size)).
  set (sz := Z.to_nat size).
  assert (Hcnt : 0 <= cnt /\ (cnt - 1) * size < Z.of_nat len <= cnt * size).
  { subst cnt. Z.div_mod_to_equations. nia. }
  set (n := Z.to_nat cnt).
  assert (Hmap : map (fun i => slice array (i * size) (i * size + size)) (indices cnt)
                 = map (fun j => firstn sz (skipn (j * sz) array)) (seq 0 n)).
  { unfold indices. rewrite map_map. apply map_ext. intros j.
    replace (Z.of_nat j * size) with (Z.of_nat (j * sz)) by (subst sz; lia).
    replace size with (Z.of_nat sz) at 1 by (subst sz; lia).
    apply slice_from. }
  rewrite Hmap. eexists. split; [reflexivity|].
  split.
  { rewrite concat_chunks. apply firstn_all2. fold len. subst n sz. nia. }
  split.
  { rewrite length_map, length_seq. subst n. lia. }
  split.
  { apply Forall_forall. intros c Hc. apply in_map_iff in Hc as (j & <- & Hj).
    apply in_seq in Hj.
    rewrite length_firstn, length_skipn. fold len. subst n sz. nia. }
  intros j Hj. rewrite length_map, length_seq in Hj.
  rewrite (nth_indep _ [] (firstn sz (skipn (0 * sz) array)))
    by (rewrite length_map, length_seq; lia).
  change (firstn sz (skipn (0 * sz) array))
    with ((fun j => firstn sz (skipn (j * sz) array)) 0%nat).
  rewrite map_nth. rewrite seq_nth by lia.
  rewrite length_firstn, length_skipn. fold len. subst n sz. nia.
Qed.

(** The other sizes: a negative size gives no chunk at all, size 0 gives
    none for an empty array and raises a RangeError for any other. *)
Theorem chunk_degenerate (array : list T) (size : Z) :
  (size < 0 -> chunk array size = Some []) /\
  (size = 0 -> array = [] -> chunk array size = Some []) /\
  (size = 0 -> array <> [] -> chunk array size = None).
Proof.
  unfold chunk. cbv zeta. repeat split.
  - intros H. destruct (Z.eqb_spec size 0); [lia|].
    replace (indices (- (- Z.of_nat (List.length array) / size))) with (@nil Z);
      [reflexivity|].
    unfold indices.
    replace (Z.to_nat (- (- Z.of_nat (List.length array) / size))) with 0%nat;
      [reflexivity|].
    assert (- (- Z.of_nat (List.length array) / size) <= 0)
      by (Z.div_mod_to_equations; nia).
    lia.
  - intros -> ->. reflexivity.
  - intros -> H. destruct array; [contradiction|reflexivity].
Qed.

End ArrayFacts.

(** * Facts about the masking module *)

Lemma substring_0_6_of_7 (s1 s2 : string) :
  substring 0 7 s1 = substring 0 7 s2 ->
  String.length s1 = 13%nat -> String.length s2 = 13%nat ->
  substring 0 6 s1 = substring 0 6 s2 /\ substring 6 1 s1 = substring 6 1 s2.
Proof.
  intros H L1 L2.
  do 7 (destruct s1 as [|? s1]; [discriminate|]).
  do 7 (destruct s2 as [|? s2]; [discriminate|]).
  cbn in H. injection H as -> -> -> -> -> -> -> _.
  destruct s1; [discriminate|]. destruct s2; [discriminate|].
  split; reflexivity.
Qed.

(** The mask of a registration number shows its first seven digits and
    nothing else: two numbers of 13 digits with the same first seven have
    the same mask, of 14 characters, and any text that does not hold
    exactly 13 digits is masked as ["-"]. *)
Theorem maskRRN_hides_tail (rrn1 rrn2 : string) :
  (String.length (keep_digits rrn1) = 13%nat ->
   String.length (keep_digits rrn2) = 13%nat ->
   substring 0 7 (keep_digits rrn1) = substring 0 7 (keep_digits rrn2) ->
   maskRRN (Some rrn1) = maskRRN (Some rrn2) /\
   String.length (maskRRN (Some rrn1)) = 14%nat) /\
  (String.length (keep_digits rrn1) <> 13%nat -> maskRRN (Some rrn1) = "-").
Proof.
  split.
  - intros L1 L2 H.
    assert (N1 : (rrn1 =? "")%string = false) by (destruct rrn1; [discriminate|reflexivity]).
    assert (N2 : (rrn2 =? "")%string = false) by (destruct rrn2; [discriminate|reflexivity]).
    unfold maskRRN. rewrite N1, N2, L1, L2. cbn [Nat.eqb negb].
    destruct (substring_0_6_of_7 _ _ H L1 L2) as [E6 E1]. rewrite E6, E1.
    split; [reflexivity|].
    clear - L2. set (s := keep_digits rrn2) in *. clearbody s.
    do 13 (destruct s as [|? s]; [discriminate|]). reflexivity.
  - intros L. unfold maskRRN. destruct (rrn1 =? "")%string; [reflexivity|].
    apply Nat.eqb_neq in L. rewrite L. reflexivity.
Qed.

Lemma length_append (a b : string) :
  String.length (a ++ b) = (String.length a + String.length b)%nat.
Proof. induction a as [|c a IH]; [reflexivity|]. simpl. rewrite IH. reflexivity. Qed.

Lemma length_repeat_char c n : String.length (repeat_char c n) = n.
Proof. induction n as [|n IH]; [reflexivity|]. simpl. rewrite IH. reflexivity. Qed.

Lemma length_substring : forall (s : string) (n m : nat),
  (n + m <= String.length s)%nat -> String.length (substring n m s) = m.
Proof.
  induction s as [|c s IH]; intros n m H.
  - simpl in H. assert (n = 0%nat /\ m = 0%nat) as [-> ->] by lia. reflexivity.
  - destruct n as [|n].
    + destruct m as [|m]; [reflexivity|].
      simpl. f_equal. apply (IH 0%nat m). simpl in H. lia.
    + simpl. apply IH. simpl in H. lia.
Qed.

(** The mask of an account number has as many characters as the number
    has digits and depends only on that count and on the first four and
    the last four digits; with fewer than eight digits it is ["-"]. *)
Theorem maskAccount_hides_middle (account1 account2 : string) :
  let c1 := keep_digits account1 in
  let c2 := keep_digits account2 in
  ((8 <= String.length c1)%nat ->
     String.length (maskAccount (Some account1)) = String.length c1) /\
  ((8 <= String.length c1)%nat ->
     String.length c1 = String.length c2 ->
     substring 0 4 c1 = substring 0 4 c2 ->
     substring (String.length c1 - 4) 4 c1 = substring (String.length c2 - 4) 4 c2 ->
     maskAccount (Some account1) = maskAccount (Some account2)) /\
  ((String.length c1 < 8)%nat -> maskAccount (Some account1) = "-").
Proof.
  intros c1 c2.
  assert (Hne : forall a, (8 <= String.length (keep_digits a))%nat ->
                          (a =? "")%string = false).
  { intros a H. destruct a; [simpl in H; lia|reflexivity]. }
  repeat split.
  - intros H. unfold maskAccount. rewrite (Hne _ H). fold c1.
    destruct (Nat.ltb_spec (String.length c1) 8); [lia|].
    rewrite !length_append, length_repeat_char, !length_substring by lia. lia.
  - intros H L E4 E4'. unfold maskAccount.
    rewrite (Hne account1 H), (Hne account2) by (fold c2; lia).
    fold c1 c2. rewrite E4, E4', L. reflexivity.
  - intros H. unfold maskAccount. destruct (account1 =? "")%string; [reflexivity|].
    fold c1. apply Nat.ltb_lt in H. rewrite H. reflexivity.
Qed.


(** * The theorems at concrete inputs *)

(** C2.  For 2 January of the year 50 the code answers week 1, where the
    week its documentation describes is week 2: the 1st of that month is
    a Saturday, but the code builds the 1st of the month through the
    [Date] constructor, which reads the year 50 as 1950, whose January
    starts on a Sunday. *)
Theorem getWeekOfMonth_two_digit_year :
  let date := newDate_string strictParse "0050-01-02" in
  let t := -60589209600000 in
  date = Some t /\
  getFullYear 0 date = Some 50 /\ getMonth 0 date = Some 0 /\ getDate 0 date = Some 2 /\
  firstWeekDayOfMonth (LocalTime 0 t) = 6 /\
  getDay 0 (newDate_ymd 0 (getFullYear 0 date) (getMonth 0 date) (Some 1)) = Some 0 /\
  weekOfMonth_documented (LocalTime 0 t) = 2 /\
  getWeekOfMonth 0 date = Some 1.
Proof. vm_compute. repeat split. Qed.

(** C3, the claim as it was stated fails at the end of the range of
    representable times: the base date is valid and the weekday name is
    known, yet the result is an Invalid Date, not a date after the base. *)
Lemma getNextDayOfWeek_range_end :
  getDayIndex "월" = Some 1 /\
  getNextDayOfWeek 0 "월" (Some 8640000000000000) true = Some None /\
  ~ (exists r, getNextDayOfWeek 0 "월" (Some 8640000000000000) true = Some (Some r)).
Proof.
  split; [reflexivity|]. split; [reflexivity|].
  intros [r H]. vm_compute in H. discriminate H.
Qed.

Lemma getNextDayOfWeek_offset_witness :
  exists n,
    getNextDayOfWeek KST "월" (Some 1745452800000) true
      = Some (Some (1745452800000 + n * msPerDay)) /\
    1 <= n <= 7 /\
    getDay KST (Some (1745452800000 + n * msPerDay)) = Some 1 /\
    (getDay KST (Some 1745452800000) = Some 1 -> n = 7).
Proof.
  apply (getNextDayOfWeek_offset KST "월" 1745452800000 true).
  unfold msPerDay, maxTime. lia.
Defined.

(** C4, the claim as it was stated fails on a host behind UTC, here by
    five hours: the date string denotes midnight in UTC, which is the
    evening before in local time, so that noon of the day the string names
    is not selectable and noon of the day before is. *)
Lemma isDateDisabled_behind_UTC :
  let tz := -5 * msPerHour in
  let s := "2025-04-24" in
  let today := Some 1745514000000 in
  namedDay s = (2025, 3, 24) /\
  calendarDay tz 1745514000000 = (2025, 3, 24) /\
  isDateDisabled tz strictParse (Some 1745514000000) s s today = true /\
  calendarDay tz 1745427600000 = (2025, 3, 23) /\
  isDateDisabled tz strictParse (Some 1745427600000) s s today = false.
Proof. vm_compute. repeat split. Qed.

Lemma isDateDisabled_same_start_end_witness :
  negb (isDateDisabled KST strictParse (Some 1745480000000) "2025-04-24" "2025-04-24"
          (Some 1745470000000)) = true /\
  isDateDisabled KST strictParse (Some 1745480000000) "2025-04-24" "2025-04-24"
    (Some 1745470000000)
  = negb (isSameDay KST (Some 1745480000000) (Some 1745470000000)).
Proof.
  assert (Htz : 0 <= KST < msPerDay) by (unfold KST, msPerHour, msPerDay; lia).
  destruct (isDateDisabled_same_start_end KST strictParse (Some 1745480000000)
              "2025-04-24" (Some 1745470000000) 1745452800000 eq_refl Htz) as [H1 H2].
  split.
  - apply H1. exists 1745480000000. split; reflexivity.
  - apply H2. reflexivity.
Defined.

Lemma getDefaultOpenMonth_first_match_witness :
  getDefaultOpenMonth strictParse "2025-03-15" "2030-01-01" (Some 1745452800000)
    = Some 1741996800000.
Proof.
  apply (proj1 (getDefaultOpenMonth_first_match strictParse
                  "2025-03-15" "2025-04-28" (Some 1745452800000))).
  exists 1741996800000, 1745452800000.
  split; [reflexivity|]. split; [reflexivity|]. lia.
Defined.

(** C6, the claim as it was stated fails before the year 1000: the year is
    written as it is, here on three digits. *)
Lemma formatDate_year_999 :
  let date := newDate_string strictParse "0999-01-01" in
  getFullYear 0 date = Some 999 /\
  formatDate 0 date "yyyy" = "999" /\
  String.length (formatDate 0 date "yyyy") <> 4%nat.
Proof. vm_compute. repeat split. discriminate. Qed.

Lemma formatDate_tokens_witness :
  formatDate KST (newDate_string strictParse "2025-04-08") "yyyy-MM-dd" = "2025-04-08" /\
  formatDate KST (newDate_string strictParse "2025-04-08") "yyyy-M-d" = "2025-4-8".
Proof.
  apply (proj2 (formatDate_tokens KST (newDate_string strictParse "2025-04-08")));
    reflexivity.
Defined.

Lemma getDayIndex_roundtrip_witness :
  exists name,
    array_get (DAY_MAPPINGS_at ko_short) (Some 1) = Some name /\
    getDayIndex name = Some 1.
Proof. apply (getDayIndex_roundtrip ko_short 1). lia. Defined.

Lemma dateToUnixEpoch_unixEpochToDate_witness :
  dateToUnixEpoch (unixEpochToDate (number_of_Z 1714022400)) = Some 1714022400.
Proof.
  apply (dateToUnixEpoch_unixEpochToDate 1714022400).
  unfold maxTime. lia.
Defined.

Lemma formatSafeDate_spec_witness :
  formatSafeDate KST strictParse (Str "1714022400") "yyyy/MM/dd" = "2024/04/25".
Proof.
  apply (proj1 (proj2 (proj2 (proj2 (formatSafeDate_spec KST strictParse "yyyy/MM/dd"))))
           (Str "1714022400") 1714022400).
  right. exists "1714022400".
  split; [reflexivity|]. split; [reflexivity|]. split; [discriminate|reflexivity].
Defined.

Lemma formatSafeDate_whitespace_witness :
  formatSafeDate KST strictParse (Str " ") "yyyy-MM-dd" = "1970-01-01".
Proof.
  apply (proj2 (proj2 (proj2 (proj2 (formatSafeDate_whitespace KST strictParse))))).
  unfold KST, msPerHour, msPerDay. lia.
Defined.

(** * The further facts at concrete inputs *)

Lemma getWeekOfMonth_documented_witness :
  getWeekOfMonth KST (Some 1745452800000)
    = Some (weekOfMonth_documented (LocalTime KST 1745452800000)).
Proof.
  apply (getWeekOfMonth_documented KST 1745452800000).
  - change (~ (0 <= 2025 <= 99)). lia.
  - unfold msPerDay, maxTime. lia.
Defined.

Lemma getWeekOfMonth_first_witness :
  getWeekOfMonth 0 (Some 1743465600000) = Some 1.
Proof. apply (getWeekOfMonth_first 0 (Some 1743465600000)). reflexivity. Defined.

Lemma getWeekOfMonth_monotone_witness :
  exists wa wb,
    getWeekOfMonth KST (Some 1744070400000) = Some wa /\
    getWeekOfMonth KST (Some 1745452800000) = Some wb /\
    wa <= wb.
Proof.
  apply (getWeekOfMonth_monotone KST 1744070400000 1745452800000).
  - reflexivity.
  - reflexivity.
  - change (8 <= 24). lia.
Defined.

Lemma getWeekDays_week_witness :
  exists offset,
    0 <= offset <= 6 /\
    getWeekDays KST (Some 1745452800000) true
      = map (fun i => Some (1745452800000 + (i - offset) * msPerDay))
            [0; 1; 2; 3; 4; 5; 6] /\
    getDay KST (Some (1745452800000 - offset * msPerDay)) = Some 0.
Proof.
  apply (getWeekDays_week KST 1745452800000 true).
  unfold msPerDay, maxTime. lia.
Defined.

Lemma convertDayFormat_tables_witness :
  exists name name',
    array_get (DAY_MAPPINGS_at ko_short) (Some 1) = Some name /\
    array_get (DAY_MAPPINGS_at en_short) (Some 1) = Some name' /\
    convertDayFormat name en_short = Some name' /\
    convertDayFormat name' ko_short = Some name.
Proof. apply (convertDayFormat_tables ko_short en_short 1). lia. Defined.

Lemma isDateDisabled_end_today_witness :
  isDateDisabled KST strictParse (Some 1745452800000) "2025-04-20" ""
                 (Some 1745480000000) = false <->
  exists t, Some 1745452800000 = Some t /\
            calendarDay KST t = calendarDay KST 1745480000000.
Proof.
  apply (isDateDisabled_end_today KST strictParse (Some 1745452800000)
           "2025-04-20" "" 1745107200000 1745480000000 1745480000000).
  - reflexivity.
  - reflexivity.
  - vm_compute. discriminate.
  - reflexivity.
Defined.

Lemma isDateDisabled_window_witness :
  (forall t, isDateDisabled KST strictParse (Some t) "2025-04-20" "2025-04-28"
                            (Some 1745480000000) = false <->
             1745107200000 <= t <= 1745798400000 /\ 1745480000000 - msPerDay <= t) /\
  isDateDisabled KST strictParse None "2025-04-20" "2025-04-28"
                 (Some 1745480000000) = false.
Proof.
  apply (isDateDisabled_window KST strictParse "2025-04-20" "2025-04-28"
           1745107200000 1745798400000 1745480000000).
  - reflexivity.
  - reflexivity.
  - vm_compute. discriminate.
  - vm_compute. discriminate.
  - unfold msPerDay, maxTime. lia.
Defined.

Lemma formatDate_plain_text_witness :
  formatDate KST (Some 1745452800000) "00:00 (KST)" = "00:00 (KST)".
Proof.
  apply (formatDate_plain_text KST (Some 1745452800000) "00:00 (KST)"); reflexivity.
Defined.

Lemma dateToUnixEpoch_floor_witness :
  exists s,
    dateToUnixEpoch (Some (-1)) = Some s /\
    s * 1000 <= -1 < s * 1000 + 1000 /\
    unixEpochToDate (number_of_int (dateToUnixEpoch (Some (-1)))) = Some (s * 1000) /\
    dateToUnixEpoch None = None.
Proof. apply (dateToUnixEpoch_floor (-1)). unfold maxTime. lia. Defined.

Lemma getKstDateString_utc9_witness :
  getKstDateString (-18000000) (Some 1745452800000)
    = Some (isoDatePart (1745452800000 + 9 * msPerHour)).
Proof.
  apply (getKstDateString_utc9 (-18000000) 1745452800000).
  unfold msPerHour, maxTime. lia.
Defined.

Lemma formatSafeDate_iso_date_witness :
  StringToNumber "2025-04-24" = NaN /\
  newDate_string strictParse "2025-04-24" = Some 1745452800000 /\
  formatSafeDate KST strictParse (Str "2025-04-24") "yyyy/MM/dd"
    = formatDate KST (Some 1745452800000) "yyyy/MM/dd".
Proof.
  apply (formatSafeDate_iso_date KST strictParse "2025-04-24" 1745452800000 "yyyy/MM/dd").
  reflexivity.
Defined.

Lemma formatSafeDate_iso_roundtrip_witness :
  formatSafeDate KST strictParse (Str "2025-04-24") "yyyy-MM-dd" = "2025-04-24".
Proof.
  apply (formatSafeDate_iso_roundtrip KST strictParse "2025-04-24" 1745452800000).
  - reflexivity.
  - reflexivity.
  - unfold KST, msPerHour, msPerDay. lia.
Defined.

Lemma chunk_positive_witness :
  exists chunks,
    chunk [1; 2; 3; 4; 5] 2 = Some chunks /\
    List.concat chunks = [1; 2; 3; 4; 5] /\
    Z.of_nat (List.length chunks) = - ((- Z.of_nat (List.length [1; 2; 3; 4; 5])) / 2) /\
    Forall (fun c => 1 <= Z.of_nat (List.length c) <= 2) chunks /\
    (forall j, (S j < List.length chunks)%nat ->
               Z.of_nat (List.length (nth j chunks [])) = 2).
Proof. apply (chunk_positive Z [1; 2; 3; 4; 5] 2). lia. Defined.
